(** * LLM_Routing_System: the routing decision pipeline

    A shallow embedding of [core/cache.py], [core/classifier.py] and
    [core/router.py], with the properties of the routing pipeline stated
    and settled against it.

    Conventions.
    - A Python [str] is the sequence of its code points; the embedding
      covers the code points U+0000..U+00FF, one [ascii] each, so that
      [len] is [String.length].
    - A Python [float] (confidence, cost, latency, clock reading) is a
      rational [Q]; the decimal literals of the source are written as
      the same decimals.
    - A Python [dict] read with [d[k]] or [d.get(k, default)] is a record
      with [option] fields or a [gmap]; a missing key raises [KeyError]
      or yields the default exactly where the source does. [Config] is
      the configuration with its four sections in place; [Loaded.Config]
      is the dictionary as loaded, for the two subscripts that
      [_select_model] makes before its [try]. *)

From Stdlib Require Import ZArith QArith String Ascii List Bool Lia Lqa.
From stdpp Require Import base gmap strings list.

Local Open Scope string_scope.
Local Open Scope Z_scope.

(** ** Python strings *)

Module Py.

(** [str.lower()] on one code point below U+0100: the letters A-Z and the
    Latin-1 capitals U+00C0..U+00DE (without the multiplication sign
    U+00D7) move up by 32, every other code point is fixed. *)
Definition lower_ascii (c : ascii) : ascii :=
  let n := N_of_ascii c in
  if ((65 <=? n) && (n <=? 90))%N then ascii_of_N (n + 32)
  else if ((192 <=? n) && (n <=? 222) && negb (n =? 215))%N then ascii_of_N (n + 32)
  else c.

(** [s.lower()] *)
Fixpoint lower (s : string) : string :=
  match s with
  | EmptyString => EmptyString
  | String c s' => String (lower_ascii c) (lower s')
  end.

(** [kw in s]: [kw] occurs in [s] as a contiguous substring. *)
Fixpoint contains (kw s : string) : bool :=
  String.prefix kw s ||
  match s with
  | EmptyString => false
  | String _ s' => contains kw s'
  end.

(** [len(s)] as a Python number. *)
Definition len (s : string) : Q := inject_Z (Z.of_nat (String.length s)).

(** [a < b] and [a >= b] on numbers. *)
Definition ltb (a b : Q) : bool := negb (Qle_bool b a).
Definition geb (a b : Q) : bool := Qle_bool b a.

End Py.

(** ** core/classifier.py *)

(** [config['classification']]: every key is optional, the source reads
    each with [dict.get] and a default. *)
Record LengthThresholds := {
  lt_simple : option Q;
  lt_advanced : option Q
}.

Record ClassificationConfig := {
  simple_keywords : option (list string);
  advanced_keywords : option (list string);
  query_length_thresholds : option LengthThresholds
}.

Definition no_length_thresholds : LengthThresholds :=
  {| lt_simple := None; lt_advanced := None |}.

(** [QueryClassifier._rule_based_classification] *)
Definition _rule_based_classification
    (config : ClassificationConfig) (query : string) : string * Q :=
  let query_lower := Py.lower query in
  let simple_kws := default [] (simple_keywords config) in
  let advanced_kws := default [] (advanced_keywords config) in
  let has_simple := existsb (fun kw => Py.contains kw query_lower) simple_kws in
  let has_advanced := existsb (fun kw => Py.contains kw query_lower) advanced_kws in
  let length_thresholds := default no_length_thresholds (query_length_thresholds config) in
  let is_short := Py.ltb (Py.len query) (default 80%Q (lt_simple length_thresholds)) in
  let is_long := Py.ltb (default 200%Q (lt_advanced length_thresholds)) (Py.len query) in
  if has_advanced || is_long then
    ("advanced", if has_advanced then 0.85%Q else 0.70%Q)
  else if has_simple && is_short then
    ("simple", if has_simple then 0.90%Q else 0.75%Q)
  else
    ("medium", 0.80%Q).

(** The classifier object: its configuration and, once [train] has run,
    the fitted model ([is_trained] is [true] exactly when there is one).
    The fitted scikit-learn pipeline is taken as the function it
    computes: predicted label and largest class probability. *)
Record QueryClassifier := {
  cl_config : ClassificationConfig;
  cl_model : option (string -> string * Q)
}.

(** [QueryClassifier.classify] *)
Definition classify (self : QueryClassifier) (query : string) : string * Q :=
  match cl_model self with
  | Some predict => predict query
  | None => _rule_based_classification (cl_config self) query
  end.


(** ** hashlib.md5

    The digest the cache keys are made of, after RFC 1321, on bytes as
    [Z] in 0..255 and 32-bit words as [Z] reduced modulo 2^32. *)

Module MD5.

Definition mask32 (x : Z) : Z := Z.land x 0xffffffff.

Definition rotl32 (x : Z) (c : Z) : Z :=
  mask32 (Z.lor (Z.shiftl x c) (Z.shiftr x (32 - c))).

Definition not32 (x : Z) : Z := Z.lxor x 0xffffffff.

Definition shifts : list Z :=
  [7; 12; 17; 22; 7; 12; 17; 22; 7; 12; 17; 22; 7; 12; 17; 22;
   5; 9; 14; 20; 5; 9; 14; 20; 5; 9; 14; 20; 5; 9; 14; 20;
   4; 11; 16; 23; 4; 11; 16; 23; 4; 11; 16; 23; 4; 11; 16; 23;
   6; 10; 15; 21; 6; 10; 15; 21; 6; 10; 15; 21; 6; 10; 15; 21].

Definition sines : list Z :=
  [0xd76aa478; 0xe8c7b756; 0x242070db; 0xc1bdceee; 0xf57c0faf; 0x4787c62a; 0xa8304613; 0xfd469501;
   0x698098d8; 0x8b44f7af; 0xffff5bb1; 0x895cd7be; 0x6b901122; 0xfd987193; 0xa679438e; 0x49b40821;
   0xf61e2562; 0xc040b340; 0x265e5a51; 0xe9b6c7aa; 0xd62f105d; 0x02441453; 0xd8a1e681; 0xe7d3fbc8;
   0x21e1cde6; 0xc33707d6; 0xf4d50d87; 0x455a14ed; 0xa9e3e905; 0xfcefa3f8; 0x676f02d9; 0x8d2a4c8a;
   0xfffa3942; 0x8771f681; 0x6d9d6122; 0xfde5380c; 0xa4beea44; 0x4bdecfa9; 0xf6bb4b60; 0xbebfbc70;
   0x289b7ec6; 0xeaa127fa; 0xd4ef3085; 0x04881d05; 0xd9d4d039; 0xe6db99e5; 0x1fa27cf8; 0xc4ac5665;
   0xf4292244; 0x432aff97; 0xab9423a7; 0xfc93a039; 0x655b59c3; 0x8f0ccc92; 0xffeff47d; 0x85845dd1;
   0x6fa87e4f; 0xfe2ce6e0; 0xa3014314; 0x4e0811a1; 0xf7537e82; 0xbd3af235; 0x2ad7d2bb; 0xeb86d391].

(** [str.encode('utf-8')] on code points below U+0100. *)
Fixpoint encode_utf8 (s : string) : list Z :=
  match s with
  | EmptyString => []
  | String c s' =>
      let n := Z.of_N (N_of_ascii c) in
      if n <? 128 then n :: encode_utf8 s'
      else Z.lor 0xc0 (Z.shiftr n 6) :: Z.lor 0x80 (Z.land n 0x3f) :: encode_utf8 s'
  end.

(** Little-endian bytes of the low [n] bytes of [x]. *)
Fixpoint le_bytes (n : nat) (x : Z) : list Z :=
  match n with
  | O => []
  | S n' => Z.land x 0xff :: le_bytes n' (Z.shiftr x 8)
  end.

Fixpoint le_word (bs : list Z) : Z :=
  match bs with
  | [] => 0
  | b :: bs' => Z.lor b (Z.shiftl (le_word bs') 8)
  end.

(** The message, a single 1 bit, zeros up to 56 modulo 64, then the
    length in bits on 64 bits. *)
Definition pad (msg : list Z) : list Z :=
  let n := Z.of_nat (length msg) in
  let zeros := Z.to_nat ((55 - n) mod 64) in
  msg ++ 0x80 :: repeat 0 zeros ++ le_bytes 8 (8 * n).

(** The sixteen words of a 64-byte block. *)
Fixpoint words (n : nat) (block : list Z) : list Z :=
  match n with
  | O => []
  | S n' => le_word (firstn 4 block) :: words n' (skipn 4 block)
  end.

Definition round (m : list Z) (st : Z * Z * Z * Z) (i : nat) : Z * Z * Z * Z :=
  let '(a, b, c, d) := st in
  let iz := Z.of_nat i in
  let '(f, g) :=
    if iz <? 16 then (Z.lor (Z.land b c) (Z.land (not32 b) d), iz)
    else if iz <? 32 then (Z.lor (Z.land d b) (Z.land (not32 d) c), (5 * iz + 1) mod 16)
    else if iz <? 48 then (Z.lxor (Z.lxor b c) d, (3 * iz + 5) mod 16)
    else (Z.lxor c (Z.lor b (not32 d)), (7 * iz) mod 16) in
  let f' := mask32 (f + a + nth i sines 0 + nth (Z.to_nat g) m 0) in
  (d, mask32 (b + rotl32 f' (nth i shifts 0)), b, c).

Definition compress (h : Z * Z * Z * Z) (block : list Z) : Z * Z * Z * Z :=
  let '(a0, b0, c0, d0) := h in
  let '(a, b, c, d) := fold_left (round (words 16 block)) (seq 0 64) h in
  (mask32 (a0 + a), mask32 (b0 + b), mask32 (c0 + c), mask32 (d0 + d)).

Fixpoint blocks (n : nat) (h : Z * Z * Z * Z) (bs : list Z) : Z * Z * Z * Z :=
  match n with
  | O => h
  | S n' => blocks n' (compress h (firstn 64 bs)) (skipn 64 bs)
  end.

Definition digest (msg : list Z) : list Z :=
  let padded := pad msg in
  let '(a, b, c, d) :=
    blocks (length padded / 64)
           (0x67452301, 0xefcdab89, 0x98badcfe, 0x10325476) padded in
  le_bytes 4 a ++ le_bytes 4 b ++ le_bytes 4 c ++ le_bytes 4 d.

Definition hex_digit (n : Z) : ascii :=
  ascii_of_N (Z.to_N (if n <? 10 then 48 + n else 87 + n)).

Fixpoint hex (bs : list Z) : string :=
  match bs with
  | [] => EmptyString
  | b :: bs' => String (hex_digit (Z.shiftr b 4)) (String (hex_digit (Z.land b 0xf)) (hex bs'))
  end.

(** [hashlib.md5(data).hexdigest()] *)
Definition hexdigest (msg : list Z) : string := hex (digest msg).

End MD5.


(** ** Exceptions and the effect monad

    A method of the source runs on a mutable object and either returns
    a value or raises; whatever it changed before raising stays
    changed. [M S A] is such a computation on a state [S]. *)

Inductive Exn :=
| ValueError (msg : string)
| KeyError (key : string)
| TypeError (msg : string)
| StorageError (msg : string)
| GenerationError (msg : string).

Definition M (S A : Type) : Type := S -> (Exn + A) * S.

Definition ret {S A} (a : A) : M S A := fun s => (inr a, s).

Definition raise {S A} (e : Exn) : M S A := fun s => (inl e, s).

Definition bind {S A B} (m : M S A) (k : A -> M S B) : M S B :=
  fun s =>
    match m s with
    | (inl e, s') => (inl e, s')
    | (inr a, s') => k a s'
    end.

(** [try: m except Exception as e: h e] *)
Definition try_except {S A} (m : M S A) (h : Exn -> M S A) : M S A :=
  fun s =>
    match m s with
    | (inl e, s') => h e s'
    | (inr a, s') => (inr a, s')
    end.

Definition gets {S A} (f : S -> A) : M S A := fun s => (inr (f s), s).

Definition modify {S} (f : S -> S) : M S unit := fun s => (inr tt, f s).

(** Run a computation on a component of the state. *)
Definition zoom {S T A} (proj : S -> T) (inj : T -> S -> S) (m : M T A) : M S A :=
  fun s => let '(r, t') := m (proj s) in (r, inj t' s).

Declare Scope py_scope.
Delimit Scope py_scope with py.
Notation "'let*' x ':=' m 'in' k" := (bind m (fun x => k))
  (at level 10, x name, m at level 100, k at level 200) : py_scope.
Notation "'let*' ' p ':=' m 'in' k" := (bind m (fun x => match x with p => k end))
  (at level 10, p pattern, m at level 100, k at level 200) : py_scope.
Notation "m1 ';;' m2" := (bind m1 (fun _ => m2))
  (at level 100, m2 at level 200, right associativity) : py_scope.
Local Open Scope py_scope.

(** ** core/cache.py *)

(** The dictionary [QueryCache.set] stores and [QueryCache.get] returns. *)
Record CacheEntry := {
  ce_query : string;
  ce_model_used : string;
  ce_response : string;
  ce_speed_ms : Q;
  ce_accuracy : Q;
  ce_cost : Q;
  ce_classification : string;
  ce_confidence : Q
}.

(** *** diskcache.Cache, as [QueryCache] uses it

    The store is the third-party [diskcache] package, opened with the
    least-recently-used eviction policy; its operations are written
    after the package's documented behaviour, for the calls
    [core/cache.py] makes. A row per key with its value, its expiry time ([None]: never) and
    its last access time; the hit and miss counters, counted only while
    [statistics] is on; the byte budget [size_limit]. [fault] is the
    condition of the SQLite store underneath: for each kind of
    operation, the exception it raises at present, if any. *)

Inductive StorageOp := OpGet | OpSet | OpClear | OpStats | OpVolume | OpLen.

Record Item := {
  value : CacheEntry;
  expire_time : option Q;
  access_time : Q
}.

Record DiskCache := {
  rows : gmap string Item;
  size_limit : Z;
  statistics : bool;
  hits : Z;
  misses : Z;
  fault : StorageOp -> option Exn
}.

Module Disk.

Definition with_rows (r : gmap string Item) (c : DiskCache) : DiskCache :=
  {| rows := r; size_limit := size_limit c; statistics := statistics c;
     hits := hits c; misses := misses c; fault := fault c |}.

Definition count_hit (c : DiskCache) : DiskCache :=
  {| rows := rows c; size_limit := size_limit c; statistics := statistics c;
     hits := if statistics c then hits c + 1 else hits c;
     misses := misses c; fault := fault c |}.

Definition count_miss (c : DiskCache) : DiskCache :=
  {| rows := rows c; size_limit := size_limit c; statistics := statistics c;
     hits := hits c;
     misses := if statistics c then misses c + 1 else misses c; fault := fault c |}.

Definition enable_statistics (c : DiskCache) : DiskCache :=
  {| rows := rows c; size_limit := size_limit c; statistics := true;
     hits := hits c; misses := misses c; fault := fault c |}.

Definition touch (now : Q) (it : Item) : Item :=
  {| value := value it; expire_time := expire_time it; access_time := now |}.

(** A row is served while [expire_time IS NULL OR expire_time > now]. *)
Definition live (now : Q) (it : Item) : bool :=
  match expire_time it with
  | None => true
  | Some t => Py.ltb now t
  end.

(** Every operation first goes through the store. *)
Definition storage (op : StorageOp) : M DiskCache unit :=
  fun c =>
    match fault c op with
    | Some e => (inl e, c)
    | None => (inr tt, c)
    end.

Section Eviction.

(** What [set] evicts once the row is written (expired rows, then
    least-recently-used rows while the volume exceeds [size_limit])
    depends on SQLite's page accounting; the culling step and the volume
    are left open. *)
Variable cull : Z -> Q -> gmap string Item -> gmap string Item.
Variable bytes : gmap string Item -> Z.

(** [Cache.get(key)] under the least-recently-used policy: a live row
    is returned and its access time refreshed; otherwise [None]. *)
Definition get (key : string) (now : Q) : M DiskCache (option CacheEntry) :=
  storage OpGet ;;
  let* r := gets rows in
  match r !! key with
  | Some it =>
      if live now it then
        modify count_hit ;;
        modify (with_rows (<[key := touch now it]> r)) ;;
        ret (Some (value it))
      else
        modify count_miss ;; ret None
  | None => modify count_miss ;; ret None
  end.

(** [Cache.set(key, value, expire)], also [cache[key] = value] with
    [expire = None]. *)
Definition set (key : string) (v : CacheEntry) (expire : option Q) (now : Q)
  : M DiskCache unit :=
  storage OpSet ;;
  let* r := gets rows in
  let* limit := gets size_limit in
  let it := {| value := v;
               expire_time := (fun d => now + d)%Q <$> expire;
               access_time := now |} in
  modify (with_rows (cull limit now (<[key := it]> r))).

(** [Cache.stats()], that is [stats(enable=True, reset=False)]: the
    counters so far, and statistics are switched on. *)
Definition stats : M DiskCache (Z * Z) :=
  storage OpStats ;;
  let* h := gets hits in
  let* m := gets misses in
  modify enable_statistics ;;
  ret (h, m).

(** [Cache.volume()] *)
Definition volume : M DiskCache Z :=
  storage OpVolume ;; gets (fun c => bytes (rows c)).

(** [len(cache)] *)
Definition len : M DiskCache Z :=
  storage OpLen ;; gets (fun c => Z.of_nat (size (rows c))).

End Eviction.

End Disk.

(** *** QueryCache *)

Record CacheStats := {
  stat_size : Z;
  stat_items : Z;
  stat_hit_rate : Q
}.

Module QueryCache.

Record t := {
  ttl_seconds : Z;
  cache : DiskCache
}.

(** [QueryCache.__init__]: opens the store under [./cache_data] with
    whatever an earlier run left there and sets the byte budget. The
    time-to-live is kept on the object. *)
Definition init (ttl max_size : Z) (stored : DiskCache) : t :=
  {| ttl_seconds := ttl;
     cache := {| rows := rows stored;
                 size_limit := max_size * 1024 * 1024;
                 statistics := statistics stored;
                 hits := hits stored;
                 misses := misses stored;
                 fault := fault stored |} |}.

Definition on_cache {A} (m : M DiskCache A) : M t A :=
  zoom cache (fun c self => {| ttl_seconds := ttl_seconds self; cache := c |}) m.

(** [QueryCache._get_query_hash] *)
Definition _get_query_hash (query : string) : string :=
  MD5.hexdigest (MD5.encode_utf8 (Py.lower query)).

(** [QueryCache.get] *)
Definition get (query : string) (now : Q) : M t (option CacheEntry) :=
  let query_hash := _get_query_hash query in
  on_cache (Disk.get query_hash now).

Section Store.

Variable cull : Z -> Q -> gmap string Item -> gmap string Item.
Variable bytes : gmap string Item -> Z.

(** [QueryCache.set] *)
Definition set (query : string) (result : CacheEntry) (now : Q) : M t unit :=
  let query_hash := _get_query_hash query in
  let clean_result :=
    {| ce_query := ce_query result;
       ce_model_used := ce_model_used result;
       ce_response := ce_response result;
       ce_speed_ms := ce_speed_ms result;
       ce_accuracy := ce_accuracy result;
       ce_cost := ce_cost result;
       ce_classification := ce_classification result;
       ce_confidence := ce_confidence result |} in
  on_cache (Disk.set cull query_hash clean_result None now).

(** [QueryCache.get_stats]. [Cache.stats()] always returns a pair, so
    the [isinstance] test of the source holds. *)
Definition get_stats : M t CacheStats :=
  try_except
    (let* '(hits, misses) := on_cache Disk.stats in
     let total := hits + misses in
     let hit_rate := if 0 <? total then (inject_Z hits / inject_Z total)%Q else 0%Q in
     let* sz := on_cache (Disk.volume bytes) in
     let* n := on_cache Disk.len in
     ret {| stat_size := sz; stat_items := n; stat_hit_rate := hit_rate |})
    (fun e =>
     let* sz := on_cache (Disk.volume bytes) in
     let* n := on_cache Disk.len in
     ret {| stat_size := sz; stat_items := n; stat_hit_rate := 0%Q |}).

End Store.

End QueryCache.

(** ** core/router.py *)

Record RoutingResult := {
  query : string;
  model_used : string;
  response : string;
  speed_ms : Q;
  accuracy : Q;
  cost : Q;
  from_cache : bool;
  classification : string;
  confidence : Q
}.

(** One entry of [config['models']]. *)
Record ModelConfig := {
  mc_provider : option string;
  mc_model_name : option string;
  mc_cost : option Q;
  mc_max_length : option Z
}.

(** A configured confidence threshold: a number, or any other YAML
    value (a string, a null, a list), with which [>=] raises
    [TypeError]. *)
Inductive Threshold :=
| ThNumber (t : Q)
| ThOther.

Record RoutingConfig := {
  confidence_thresholds : gmap string Threshold;
  fallback_model : option string
}.

Record CachingConfig := {
  cfg_ttl_seconds : Z;
  cfg_max_size : Z
}.

Record Config := {
  models : gmap string ModelConfig;
  routing : RoutingConfig;
  classification_config : ClassificationConfig;
  caching : CachingConfig
}.

Record Metrics := {
  total_queries : Z;
  cache_hits : Z;
  model_usage : gmap string Z;
  total_cost : Q;
  total_time : Q
}.

Definition model_mapping : gmap string string :=
  {[ "simple" := "ollama-simple";
     "medium" := "ollama-medium";
     "advanced" := "gpt2-large" ]}.

(** [confidence >= thresholds[classification]] *)
Definition meets (confidence : Q) (th : Threshold) : Exn + bool :=
  match th with
  | ThNumber t => inr (Py.geb confidence t)
  | ThOther => inl (TypeError "'>=' not supported between instances")
  end.

(** [Router._select_model] on a configuration whose [routing] section
    and [confidence_thresholds] mapping are in place. The body of the
    [try] is the inner [match]; the handler returns the fallback.
    [Loaded._select_model] below is the same function on the dictionary
    as loaded, where the two subscripts before the [try] can fail. *)
Definition _select_model (config : Config) (classification : string) (confidence : Q)
  : string :=
  let config := routing config in
  let thresholds := confidence_thresholds config in
  let fallback := default "ollama-simple" (fallback_model config) in
  let attempt : Exn + string :=
    match thresholds !! classification with
    | Some th =>
        match meets confidence th with
        | inl e => inl e
        | inr true => inr (default fallback (model_mapping !! classification))
        | inr false => inr fallback
        end
    | None => inr fallback
    end in
  match attempt with
  | inr chosen => chosen
  | inl _ => fallback
  end.

(** *** The selector on the configuration as loaded

    [Config] is the dictionary of [config/models.yaml] with its sections
    in place. The dictionary that [yaml.safe_load] returns can lack
    them, or hold a value of another kind under their keys.
    [_select_model] reads [self.config['routing']] and
    [config['confidence_thresholds']] with subscripts before its [try]
    (lines 104 and 105): what these two raise reaches the caller. *)
Module Loaded.

(** What is under a key of a dictionary: nothing, a mapping, or a YAML
    value of another kind (a null, a scalar, a list). *)
Inductive Value (A : Type) :=
| Missing
| Dict (d : A)
| Other.

Arguments Missing {A}.
Arguments Dict {A} d.
Arguments Other {A}.

Record Routing := {
  confidence_thresholds : Value (gmap string Threshold);
  fallback_model : option string
}.

Record Config := {
  models : gmap string ModelConfig;
  routing : Value Routing;
  classification_config : ClassificationConfig;
  caching : CachingConfig
}.

(** [Router._select_model]. A subscript with a string on a value that is
    not a mapping raises [TypeError], with a message that depends on the
    kind of the value. Under [confidence_thresholds] such a value is
    used inside the [try] only: the membership test or the subscript
    raises [TypeError] there, or the test is false, and the fallback is
    returned either way. *)
Definition _select_model (config : Config) (classification : string) (confidence : Q)
  : Exn + string :=
  match routing config with
  | Missing => inl (KeyError "routing")
  | Other => inl (TypeError "object is not subscriptable")
  | Dict config =>
      match confidence_thresholds config with
      | Missing => inl (KeyError "confidence_thresholds")
      | thresholds =>
          let fallback := default "ollama-simple" (fallback_model config) in
          let attempt : Exn + string :=
            match thresholds with
            | Dict thresholds =>
                match thresholds !! classification with
                | Some th =>
                    match meets confidence th with
                    | inl e => inl e
                    | inr true => inr (default fallback (model_mapping !! classification))
                    | inr false => inr fallback
                    end
                | None => inr fallback
                end
            | _ => inl (TypeError "argument is not a mapping")
            end in
          inr match attempt with
              | inr chosen => chosen
              | inl _ => fallback
              end
      end
  end.

End Loaded.

(** The configuration with its sections in place, out of the dictionary
    as loaded, and back. *)
Definition sectioned (loaded : Loaded.Config) : option Config :=
  match Loaded.routing loaded with
  | Loaded.Dict section =>
      match Loaded.confidence_thresholds section with
      | Loaded.Dict thresholds =>
          Some {| models := Loaded.models loaded;
                  routing := {| confidence_thresholds := thresholds;
                                fallback_model := Loaded.fallback_model section |};
                  classification_config := Loaded.classification_config loaded;
                  caching := Loaded.caching loaded |}
      | _ => None
      end
  | _ => None
  end.

Definition loaded_of (config : Config) : Loaded.Config :=
  {| Loaded.models := models config;
     Loaded.routing :=
       Loaded.Dict
         {| Loaded.confidence_thresholds :=
              Loaded.Dict (confidence_thresholds (routing config));
            Loaded.fallback_model := fallback_model (routing config) |};
     Loaded.classification_config := classification_config config;
     Loaded.caching := caching config |}.

(** [Router._update_metrics] *)
Definition _update_metrics (model : string) (speed cost : Q) (m : Metrics) : Metrics :=
  let usage :=
    match model_usage m !! model with
    | None => <[model := 0]> (model_usage m)
    | Some _ => model_usage m
    end in
  {| total_queries := total_queries m;
     cache_hits := cache_hits m;
     model_usage := <[model := default 0 (usage !! model) + 1]> usage;
     total_cost := (total_cost m + cost)%Q;
     total_time := (total_time m + speed)%Q |}.

Definition count_query (m : Metrics) : Metrics :=
  {| total_queries := total_queries m + 1;
     cache_hits := cache_hits m;
     model_usage := model_usage m;
     total_cost := total_cost m;
     total_time := total_time m |}.

Definition count_cache_hit (m : Metrics) : Metrics :=
  {| total_queries := total_queries m;
     cache_hits := cache_hits m + 1;
     model_usage := model_usage m;
     total_cost := total_cost m;
     total_time := total_time m |}.

(** [if force_model:] holds for a non-empty string only. *)
Definition given (force_model : option string) : option string :=
  match force_model with
  | Some "" => None
  | other => other
  end.

Definition lookup_model (config : Config) (id : string) {S} : M S ModelConfig :=
  match models config !! id with
  | Some mc => ret mc
  | None => raise (KeyError id)
  end.

Definition lookup_cost (mc : ModelConfig) {S} : M S Q :=
  match mc_cost mc with
  | Some c => ret c
  | None => raise (KeyError "cost")
  end.

Module Router.

Record t := {
  config : Config;
  cache : QueryCache.t;
  classifier : QueryClassifier;
  metrics : Metrics
}.

(** [Router.__init__] *)
Definition init (config : Config) (stored : DiskCache) : t :=
  {| config := config;
     cache := QueryCache.init (cfg_ttl_seconds (caching config))
                              (cfg_max_size (caching config)) stored;
     classifier := {| cl_config := classification_config config; cl_model := None |};
     metrics := {| total_queries := 0; cache_hits := 0; model_usage := ∅;
                   total_cost := 0.0%Q; total_time := 0.0%Q |} |}.

Definition with_cache (c : QueryCache.t) (self : t) : t :=
  {| config := config self; cache := c;
     classifier := classifier self; metrics := metrics self |}.

Definition with_metrics (m : Metrics) (self : t) : t :=
  {| config := config self; cache := cache self;
     classifier := classifier self; metrics := m |}.

Section Process.

(** The world outside the router: the model backends (loaded
    pipelines, the Ollama server) and the clock. The two transports of
    [core/models.py] reach it through [transformers] and [requests];
    they are taken as given, with the reply or the exception they end
    in. *)
Context {W : Type}.
Variable clock : W -> Q.
Variable _generate_huggingface_response : ModelConfig -> string -> M W (string * Q * Q).
Variable _generate_ollama_response : ModelConfig -> string -> M W (string * Q * Q).
Variable cull : Z -> Q -> gmap string Item -> gmap string Item.

(** [ModelManager.generate_response] *)
Definition generate_response (model_config : ModelConfig) (query : string)
  : M W (string * Q * Q) :=
  let provider := default "huggingface" (mc_provider model_config) in
  if String.eqb provider "huggingface" then
    _generate_huggingface_response model_config query
  else if String.eqb provider "ollama" then
    _generate_ollama_response model_config query
  else raise (ValueError ("Unknown provider: " ++ provider)).

(** A running router and the world it runs in. *)
Record Process := {
  self : t;
  world : W
}.

Definition on_self {A} (m : M t A) : M Process A :=
  zoom self (fun r p => {| self := r; world := world p |}) m.

Definition on_world {A} (m : M W A) : M Process A :=
  zoom world (fun w p => {| self := self p; world := w |}) m.

Definition on_cache {A} (m : M QueryCache.t A) : M Process A :=
  on_self (zoom cache with_cache m).

Definition on_metrics (f : Metrics -> Metrics) : M Process unit :=
  on_self (modify (fun r => with_metrics (f (metrics r)) r)).

Definition time : M Process Q := gets (fun p => clock (world p)).

(** [Router.route_query]. A cached dictionary always has its eight
    keys, so [if cached_result:] holds exactly when there is one. *)
Definition route_query (query : string) (force_model : option string)
  : M Process RoutingResult :=
  on_metrics count_query ;;
  let* cfg := gets (fun p => config (self p)) in
  match given force_model with
  | Some force_model =>
      match models cfg !! force_model with
      | None =>
          raise (ValueError ("Model " ++ force_model ++ " not found in configuration"))
      | Some mc =>
          let* '(response, speed, accuracy) := on_world (generate_response mc query) in
          let* cost := lookup_cost mc in
          on_metrics (_update_metrics force_model speed cost) ;;
          ret {| query := query;
                 model_used := force_model;
                 response := response;
                 speed_ms := speed;
                 accuracy := accuracy;
                 cost := cost;
                 from_cache := false;
                 classification := "forced";
                 confidence := 1.0%Q |}
      end
  | None =>
      let* now := time in
      let* cached_result := on_cache (QueryCache.get query now) in
      match cached_result with
      | Some e =>
          on_metrics count_cache_hit ;;
          ret {| query := ce_query e;
                 model_used := ce_model_used e;
                 response := ce_response e;
                 speed_ms := ce_speed_ms e;
                 accuracy := ce_accuracy e;
                 cost := ce_cost e;
                 from_cache := true;
                 classification := ce_classification e;
                 confidence := ce_confidence e |}
      | None =>
          let* cl := gets (fun p => classifier (self p)) in
          let '(classification, confidence) := classify cl query in
          let chosen_model := _select_model cfg classification confidence in
          let* mc := lookup_model cfg chosen_model in
          let* '(response, speed, accuracy) := on_world (generate_response mc query) in
          let* cost := lookup_cost mc in
          on_metrics (_update_metrics chosen_model speed cost) ;;
          let result_data :=
            {| ce_query := query;
               ce_model_used := chosen_model;
               ce_response := response;
               ce_speed_ms := speed;
               ce_accuracy := accuracy;
               ce_cost := cost;
               ce_classification := classification;
               ce_confidence := confidence |} in
          let* now := time in
          on_cache (QueryCache.set cull query result_data now) ;;
          ret {| query := ce_query result_data;
                 model_used := ce_model_used result_data;
                 response := ce_response result_data;
                 speed_ms := ce_speed_ms result_data;
                 accuracy := ce_accuracy result_data;
                 cost := ce_cost result_data;
                 from_cache := false;
                 classification := ce_classification result_data;
                 confidence := ce_confidence result_data |}
      end
  end.

End Process.

End Router.

(** ** More of Python's strings and numbers *)

Module Str.

(** [c.isspace()] on a code point below U+0100. *)
Definition isspace (c : ascii) : bool :=
  let n := N_of_ascii c in
  ((9 <=? n) && (n <=? 13) || (28 <=? n) && (n <=? 32) || (n =? 133) || (n =? 160))%N.

Definition flush (word : string) : list string :=
  match word with
  | EmptyString => []
  | _ => [word]
  end.

(** [s.split()]: the maximal runs of characters that are not
    whitespace, in order; [word] is the run being read. *)
Fixpoint split_from (word s : string) : list string :=
  match s with
  | EmptyString => flush word
  | String c s' =>
      if isspace c then flush word ++ split_from EmptyString s'
      else split_from (word ++ String c EmptyString) s'
  end.

Definition split (s : string) : list string := split_from EmptyString s.

(** [len(s.split())] *)
Definition word_count (s : string) : Z := Z.of_nat (length (split s)).

(** [min(a, b)] and [max(a, b)]: the first argument unless the second
    is strictly smaller, respectively larger. *)
Definition min (a b : Q) : Q := if Py.ltb b a then b else a.
Definition max (a b : Q) : Q := if Py.ltb a b then b else a.

End Str.

(** ** core/classifier.py: features *)

(** A feature value: [length] and [word_count] and the keyword flags
    are integers, the two punctuation flags are booleans. *)
Inductive Feature :=
| FInt (n : Z)
| FBool (b : bool).

Definition flag_keywords (query_lower : string) (keywords : list string)
    (features : gmap string Feature) : gmap string Feature :=
  fold_left
    (fun features keyword =>
       <["has_" ++ keyword := FInt (if Py.contains keyword query_lower then 1 else 0)]>
         features)
    keywords features.

(** [QueryClassifier.extract_features] *)
Definition extract_features (config : ClassificationConfig) (query : string)
  : gmap string Feature :=
  let query_lower := Py.lower query in
  let features : gmap string Feature :=
    {[ "length" := FInt (Z.of_nat (String.length query));
       "word_count" := FInt (Str.word_count query);
       "has_question_mark" := FBool (Py.contains "?" query);
       "has_exclamation" := FBool (Py.contains "!" query) ]} in
  let features := flag_keywords query_lower (default [] (simple_keywords config)) features in
  flag_keywords query_lower (default [] (advanced_keywords config)) features.

(** ** core/models.py: what follows the transport *)

Module ModelManager.

(** [ModelManager._estimate_accuracy] *)
Definition _estimate_accuracy (model_config : ModelConfig) (query response : string)
  : Exn + Q :=
  match mc_model_name model_config with
  | None => inl (KeyError "model_name")
  | Some model_name =>
      let base_accuracy :=
        if Py.contains "medium" model_name || Py.contains "gemma" model_name then 0.8%Q
        else if Py.contains "large" model_name then 0.85%Q
        else 0.7%Q in
      let base_accuracy :=
        match mc_provider model_config with
        | Some provider =>
            if String.eqb provider "ollama" then (base_accuracy + 0.1)%Q else base_accuracy
        | None => base_accuracy
        end in
      let query_word_count := Str.word_count query in
      let response_word_count := Str.word_count response in
      if response_word_count =? 0 then inr 0.0%Q
      else
        let response_quality :=
          Str.min 1.0%Q (inject_Z response_word_count
                         / Str.max 1%Q (inject_Z query_word_count))%Q in
        inr (Str.min 0.95%Q (base_accuracy * response_quality)%Q)
  end.

Definition poor_responses : list string :=
  ["The answer to this question was not";
   "It's a simple one";
   "But I am glad for";
   "He had no idea what he was doing"].

(** The body of the loop of [improve_response_quality] for a phrase
    found in the text: the canned answer for the topic of the query, or
    [None] when the loop goes on. *)
Definition better_response (query : string) : option string :=
  if Py.contains "capital" (Py.lower query) && Py.contains "egypt" (Py.lower query) then
    Some "Cairo is the capital city of Egypt."
  else if Py.contains "photosynthesis" (Py.lower query) then
    Some "Photosynthesis is the process where plants convert sunlight, water, and carbon dioxide into energy and oxygen."
  else if Py.contains "poem" (Py.lower query) then
    Some "I apologize, I'm not very good at writing poems yet."
  else if Py.contains "quantum computing" (Py.lower query) then
    Some "Quantum computing research focuses on developing computers that use quantum bits (qubits) instead of classical bits, allowing for faster processing of complex problems."
  else None.

Fixpoint improve_loop (phrases : list string) (text query : string) : string :=
  match phrases with
  | [] => text
  | poor :: rest =>
      if Py.contains poor text then
        match better_response query with
        | Some better => better
        | None => improve_loop rest text query
        end
      else improve_loop rest text query
  end.

(** [ModelManager.improve_response_quality] *)
Definition improve_response_quality (text query : string) : string :=
  improve_loop poor_responses text query.

End ModelManager.

(** ** utils/metrics.py *)

Module UtilsMetrics.

(** [calculate_accuracy] *)
Definition calculate_accuracy (model_name query response : string) : Q :=
  let base_accuracy :=
    if Py.contains "medium" model_name || Py.contains "gemma" model_name then 0.8%Q
    else if Py.contains "large" model_name then 0.85%Q
    else 0.7%Q in
  let base_accuracy :=
    if Py.contains "ollama" model_name then (base_accuracy + 0.1)%Q else base_accuracy in
  let query_length := Str.word_count query in
  let response_length := Str.word_count response in
  if response_length =? 0 then 0.0%Q
  else
    let response_quality :=
      Str.min 1.0%Q (inject_Z response_length / Str.max 1%Q (inject_Z query_length))%Q in
    Str.min 0.95%Q (base_accuracy * response_quality)%Q.

Definition ollama_cost_per_token : gmap string Q :=
  {[ "phi" := 0.0000001%Q; "gemma:2b" := 0.0000003%Q ]}.

Definition huggingface_cost_per_token : gmap string Q :=
  {[ "gpt2-large" := 0.00001%Q ]}.

(** [calculate_cost] *)
Definition calculate_cost (model_name : string) (response_length : Q) (provider : string)
  : Q :=
  let estimated_tokens := (response_length * 1.3)%Q in
  if String.eqb provider "ollama" then
    (default 0.0000002%Q (ollama_cost_per_token !! model_name) * estimated_tokens)%Q
  else
    (default 0.00001%Q (huggingface_cost_per_token !! model_name) * estimated_tokens)%Q.

End UtilsMetrics.

(** ** core/router.py: metrics and cache upkeep *)

Record MetricsSnapshot := {
  snap_metrics : Metrics;
  snap_cache_stats : CacheStats;
  cache_hit_rate : Q;
  avg_cost_per_query : Q;
  avg_time_per_query : Q
}.

Section Upkeep.

Variable bytes : gmap string Item -> Z.

(** [Router.get_metrics] *)
Definition get_metrics : M Router.t MetricsSnapshot :=
  let* cache_stats := zoom Router.cache Router.with_cache (QueryCache.get_stats bytes) in
  let* m := gets Router.metrics in
  ret {| snap_metrics := m;
         snap_cache_stats := cache_stats;
         cache_hit_rate :=
           if 0 <? total_queries m
           then (inject_Z (cache_hits m) / inject_Z (total_queries m))%Q
           else 0%Q;
         avg_cost_per_query :=
           if 0 <? total_queries m - cache_hits m
           then (total_cost m / inject_Z (total_queries m - cache_hits m))%Q
           else 0%Q;
         avg_time_per_query :=
           if 0 <? total_queries m - cache_hits m
           then (total_time m / inject_Z (total_queries m - cache_hits m))%Q
           else 0%Q |}.

End Upkeep.

(** ** main.py *)

Module Main.

(** The keys of a result that [analyze_misclassifications] reads. *)
Record Outcome := {
  o_query : string;
  o_classification : string;
  o_model_used : string
}.

Record Misclassification := {
  mis_query : string;
  mis_expected : string;
  mis_actual : string;
  mis_model_used : string
}.

(** [analyze_misclassifications] *)
Fixpoint analyze_misclassifications (results : list Outcome) : list Misclassification :=
  match results with
  | [] => []
  | result :: rest =>
      let query := o_query result in
      let classification := o_classification result in
      let model_used := o_model_used result in
      let found :=
        if (Py.contains "analyze" (Py.lower query) || Py.contains "complex" (Py.lower query))
           && negb (String.eqb classification "advanced") then
          [ {| mis_query := query; mis_expected := "advanced";
               mis_actual := classification; mis_model_used := model_used |} ]
        else if (Py.contains "what is" (Py.lower query) || Py.contains "define" (Py.lower query))
                && negb (String.eqb classification "simple") then
          [ {| mis_query := query; mis_expected := "simple";
               mis_actual := classification; mis_model_used := model_used |} ]
        else [] in
      found ++ analyze_misclassifications rest
  end.

Record PowerfulResult := {
  pr_query : string;
  pr_model_used : string;
  pr_response : string;
  pr_speed_ms : Q;
  pr_accuracy : Q;
  pr_cost : Q
}.

(** [powerful_metrics] while the loop runs, and as returned. *)
Record Totals := {
  t_total_time : Q;
  t_total_cost : Q;
  t_total_accuracy : Q
}.

Record PowerfulMetrics := {
  pm_total_time : Q;
  pm_total_cost : Q;
  pm_total_accuracy : Q;
  pm_avg_accuracy : Q
}.

Inductive ZeroDivision := ZeroDivisionError.

Section Comparison.

Context {W : Type}.
Variable clock : W -> Q.
Variable huggingface ollama : ModelConfig -> string -> M W (string * Q * Q).
Variable cull : Z -> Q -> gmap string Item -> gmap string Item.

(** One turn of the loop: the forced call, or the stand-in figures
    when it raises ([except Exception] lets nothing through). *)
Definition powerful_step (query : string) (p : Router.Process)
  : (PowerfulResult * Q * Q * Q) * Router.Process :=
  match Router.route_query clock huggingface ollama cull query (Some "gpt2-large") p with
  | (inr result, p') =>
      ({| pr_query := query;
          pr_model_used := "gpt2-large";
          pr_response := response result;
          pr_speed_ms := speed_ms result;
          pr_accuracy := accuracy result;
          pr_cost := cost result |},
       speed_ms result, cost result, accuracy result, p')
  | (inl _, p') =>
      ({| pr_query := query;
          pr_model_used := "gpt2-large";
          pr_response := "Error occurred";
          pr_speed_ms := 300%Q;
          pr_accuracy := 0.85%Q;
          pr_cost := 0.01%Q |},
       300%Q, 0.01%Q, 0.85%Q, p')
  end.

Fixpoint powerful_loop (queries : list string) (results : list PowerfulResult)
    (totals : Totals) (p : Router.Process)
  : (list PowerfulResult * Totals) * Router.Process :=
  match queries with
  | [] => (results, totals, p)
  | query :: rest =>
      let '(entry, speed, price, acc, p') := powerful_step query p in
      powerful_loop rest (results ++ [entry])
        {| t_total_time := (t_total_time totals + speed)%Q;
           t_total_cost := (t_total_cost totals + price)%Q;
           t_total_accuracy := (t_total_accuracy totals + acc)%Q |}
        p'
  end.

(** [compare_with_most_powerful]. After the loop the total accuracy is
    divided by [len(queries)]. *)
Definition compare_with_most_powerful (queries : list string) (p : Router.Process)
  : (ZeroDivision + list PowerfulResult * PowerfulMetrics) * Router.Process :=
  let '(results, totals, p') :=
    powerful_loop queries []
      {| t_total_time := 0.0%Q; t_total_cost := 0.0%Q; t_total_accuracy := 0.0%Q |} p in
  if (length queries =? 0)%nat then (inl ZeroDivisionError, p')
  else
    (inr (results,
          {| pm_total_time := t_total_time totals;
             pm_total_cost := t_total_cost totals;
             pm_total_accuracy := t_total_accuracy totals;
             pm_avg_accuracy :=
               (t_total_accuracy totals / inject_Z (Z.of_nat (length queries)))%Q |}),
     p').

End Comparison.

End Main.

(** * Vocabulary of the statements *)

(** Some keyword of the list, exactly as configured, occurs in the
    lower-cased query. *)
Definition mentions (keywords : option (list string)) (query : string) : Prop :=
  exists kw pre post,
    In kw (default [] keywords) /\ Py.lower query = pre ++ kw ++ post.

(** The topic occurs in the lower-cased query. *)
Definition about (topic query : string) : Prop :=
  exists pre post, Py.lower query = pre ++ topic ++ post.



Definition simple_length (config : ClassificationConfig) : Q :=
  default 80%Q (lt_simple (default no_length_thresholds (query_length_thresholds config))).

Definition advanced_length (config : ClassificationConfig) : Q :=
  default 200%Q (lt_advanced (default no_length_thresholds (query_length_thresholds config))).

Definition is_short (config : ClassificationConfig) (query : string) : Prop :=
  (Py.len query < simple_length config)%Q.

Definition is_long (config : ClassificationConfig) (query : string) : Prop :=
  (advanced_length config < Py.len query)%Q.

(** Two different texts with the same digest. *)
Definition collision (a b : string) : Prop :=
  a <> b /\ MD5.hexdigest (MD5.encode_utf8 a) = MD5.hexdigest (MD5.encode_utf8 b).

(** The store answers reads and writes. *)
Definition serving (c : QueryCache.t) : Prop :=
  fault (QueryCache.cache c) OpGet = None /\ fault (QueryCache.cache c) OpSet = None.

(** The row [QueryCache.set] writes for [query] at time [now]. *)
Definition written (e : CacheEntry) (now : Q) : Item :=
  {| value := e; expire_time := None; access_time := now |}.

(** The row written for [query] is still there once [set] has culled. *)
Definition kept (cull : Z -> Q -> gmap string Item -> gmap string Item)
    (query : string) (e : CacheEntry) (now : Q) (c : QueryCache.t) : Prop :=
  let key := QueryCache._get_query_hash query in
  cull (size_limit (QueryCache.cache c)) now
       (<[key := written e now]> (rows (QueryCache.cache c))) !! key
  = Some (written e now).

(** The fallback model id in force: the configured one, or the default
    of the source. *)
Definition fallback_of (config : Config) : string :=
  default "ollama-simple" (fallback_model (routing config)).

(** The label has a numeric threshold and the confidence reaches it. *)
Definition passes (config : Config) (label : string) (confidence : Q) : Prop :=
  exists t,
    confidence_thresholds (routing config) !! label = Some (ThNumber t) /\
    (t <= confidence)%Q.

Section Calls.

Context {W : Type}.
Variable clock : W -> Q.
Variable huggingface ollama : ModelConfig -> string -> M W (string * Q * Q).

(** The process once the call has been counted. *)
Definition counted (p : @Router.Process W) : @Router.Process W :=
  {| Router.self :=
       Router.with_metrics (count_query (Router.metrics (Router.self p))) (Router.self p);
     Router.world := Router.world p |}.

(** The cache lookup of a call that forces no model. *)
Definition lookup (query : string) (p : @Router.Process W)
  : (Exn + option CacheEntry) * QueryCache.t :=
  QueryCache.get query (clock (Router.world p)) (Router.cache (Router.self p)).

(** The model id a call that misses the cache selects. *)
Definition selected (query : string) (p : @Router.Process W) : string :=
  let '(label, confidence) := classify (Router.classifier (Router.self p)) query in
  _select_model (Router.config (Router.self p)) label confidence.

(** The model configuration the call hands to the backend, when it
    gets that far: the forced model, or on a cache miss the selected
    one. *)
Definition invoked (query : string) (force_model : option string) (p : @Router.Process W)
  : option ModelConfig :=
  let registry := models (Router.config (Router.self p)) in
  match given force_model with
  | Some id => registry !! id
  | None =>
      match fst (lookup query p) with
      | inr None => registry !! selected query p
      | _ => None
      end
  end.

(** The forced model id is not in the registry. *)
Definition unknown_forced (force_model : option string) (p : @Router.Process W) : Prop :=
  exists id, given force_model = Some id /\
             models (Router.config (Router.self p)) !! id = None.

(** The backend raises [e] on the call's invocation and leaves the
    world as [w']. *)
Definition backend_fails (query : string) (force_model : option string)
    (p : @Router.Process W) (e : Exn) (w' : W) : Prop :=
  exists mc, invoked query force_model p = Some mc /\
             Router.generate_response huggingface ollama mc query (Router.world p)
             = (inl e, w').

End Calls.

(** The entries of a store, without the bookkeeping of access times. *)
Definition contents (c : QueryCache.t) : gmap string CacheEntry :=
  value <$> rows (QueryCache.cache c).

(** The result built from a cached entry. *)
Definition served (e : CacheEntry) : RoutingResult :=
  {| query := ce_query e;
     model_used := ce_model_used e;
     response := ce_response e;
     speed_ms := ce_speed_ms e;
     accuracy := ce_accuracy e;
     cost := ce_cost e;
     from_cache := true;
     classification := ce_classification e;
     confidence := ce_confidence e |}.

(** * A scripted world

    For running the pipeline on concrete inputs: the clock reading and
    the outcomes of the coming backend calls, in order; each call takes
    a second. A store below its byte budget evicts nothing. *)

Module Script.

Record t := {
  now : Q;
  replies : list (Exn + string * Q * Q)
}.

Definition transport (_ : ModelConfig) (_ : string) : M t (string * Q * Q) :=
  fun w =>
    match replies w with
    | [] => (inl (GenerationError "connection refused"), w)
    | r :: rest => (r, {| now := (now w + 1)%Q; replies := rest |})
    end.

Definition keep_all (_ : Z) (_ : Q) (r : gmap string Item) : gmap string Item := r.

(** A flat 4096 bytes a row. *)
Definition bytes (r : gmap string Item) : Z := 4096 * Z.of_nat (size r).

Definition route_query := Router.route_query now transport transport keep_all.

Definition healthy (_ : StorageOp) : option Exn := None.

(** An empty [./cache_data]. *)
Definition fresh : DiskCache :=
  {| rows := ∅; size_limit := 0; statistics := false; hits := 0; misses := 0;
     fault := healthy |}.

(** A store whose volume cannot be read. *)
Definition unreadable_volume (op : StorageOp) : option Exn :=
  match op with
  | OpVolume => Some (StorageError "disk I/O error")
  | _ => None
  end.

Definition broken : DiskCache :=
  {| rows := ∅; size_limit := 0; statistics := false; hits := 0; misses := 0;
     fault := unreadable_volume |}.

Definition ollama (name : string) (c : Q) : ModelConfig :=
  {| mc_provider := Some "ollama"; mc_model_name := Some name;
     mc_cost := Some c; mc_max_length := Some 200 |}.

(** A configuration in the shape of [config/models.yaml]. *)
Definition config : Config :=
  {| models :=
       {[ "ollama-simple" := ollama "phi" 0.001%Q;
          "ollama-medium" := ollama "gemma:2b" 0.003%Q;
          "gpt2-large" := {| mc_provider := Some "huggingface";
                             mc_model_name := Some "gpt2-large";
                             mc_cost := Some 0.01%Q;
                             mc_max_length := Some 500 |} ]};
     routing :=
       {| confidence_thresholds :=
            {[ "simple" := ThNumber 0.6%Q;
               "medium" := ThNumber 0.7%Q;
               "advanced" := ThNumber 0.8%Q ]};
          fallback_model := Some "ollama-simple" |};
     classification_config :=
       {| simple_keywords := Some ["what is"; "define"];
          advanced_keywords := Some ["analyze"; "compare"];
          query_length_thresholds := None |};
     caching := {| cfg_ttl_seconds := 3600; cfg_max_size := 1000 |} |}.

Definition answer : CacheEntry :=
  {| ce_query := "What is Rocq?";
     ce_model_used := "ollama-simple";
     ce_response := "A proof assistant.";
     ce_speed_ms := 120%Q;
     ce_accuracy := 0.8%Q;
     ce_cost := 0.001%Q;
     ce_classification := "simple";
     ce_confidence := 0.90%Q |}.

(** A store that holds [answer] under its query. *)
Definition warm : DiskCache :=
  {| rows := {[ QueryCache._get_query_hash "What is Rocq?" := written answer 0%Q ]};
     size_limit := 0; statistics := false; hits := 0; misses := 0;
     fault := healthy |}.

(** A router just built on the store [stored], at time 0, with the
    backend outcomes [outcomes] to come. *)
Definition start (stored : DiskCache) (outcomes : list (Exn + string * Q * Q))
  : Router.Process :=
  {| Router.self := Router.init config stored;
     Router.world := {| now := 0%Q; replies := outcomes |} |}.

(** [config] with an empty model registry. *)
Definition no_models : Config :=
  {| models := ∅;
     routing := routing config;
     classification_config := classification_config config;
     caching := caching config |}.

End Script.

(** * Vocabulary of the further statements *)

(** The number of calls counted under some model. *)
Definition usage_total (m : Metrics) : Z :=
  map_fold (fun _ n total => n + total) 0 (model_usage m).

(** No more cache hits and model uses than calls. *)
Definition consistent (m : Metrics) : Prop :=
  0 <= cache_hits m /\ 0 <= usage_total m /\
  cache_hits m + usage_total m <= total_queries m.

(** The text is blank: whitespace only. *)
Definition blank (s : string) : Prop :=
  forall c pre post, s = pre ++ String c post -> Str.isspace c = true.

(** The entry a call that misses stores for its query. *)
Definition fresh_entry (query model : string) (reply : string * Q * Q) (price : Q)
    (verdict : string * Q) : CacheEntry :=
  {| ce_query := query;
     ce_model_used := model;
     ce_response := fst (fst reply);
     ce_speed_ms := snd (fst reply);
     ce_accuracy := snd reply;
     ce_cost := price;
     ce_classification := fst verdict;
     ce_confidence := snd verdict |}.

(** The result returned with a freshly computed entry. *)
Definition computed (e : CacheEntry) : RoutingResult :=
  {| query := ce_query e;
     model_used := ce_model_used e;
     response := ce_response e;
     speed_ms := ce_speed_ms e;
     accuracy := ce_accuracy e;
     cost := ce_cost e;
     from_cache := false;
     classification := ce_classification e;
     confidence := ce_confidence e |}.

(** The base accuracy of a model name. *)
Definition tier (model_name : string) : Q :=
  if Py.contains "medium" model_name || Py.contains "gemma" model_name then 0.8%Q
  else if Py.contains "large" model_name then 0.85%Q
  else 0.7%Q.

(** The figures the comparison writes down for a call that raised. *)
Definition stand_in (query : string) : Main.PowerfulResult :=
  {| Main.pr_query := query;
     Main.pr_model_used := "gpt2-large";
     Main.pr_response := "Error occurred";
     Main.pr_speed_ms := 300%Q;
     Main.pr_accuracy := 0.85%Q;
     Main.pr_cost := 0.01%Q |}.

(** * Further inputs for the runs *)

Module Demo.

(** A registry whose only model has a provider the manager does not
    know. *)
Definition exotic : Config :=
  {| models := {[ "gpt-4" := {| mc_provider := Some "openai";
                                mc_model_name := Some "gpt-4";
                                mc_cost := Some 0.03%Q;
                                mc_max_length := Some 1000 |} ]};
     routing := routing Script.config;
     classification_config := classification_config Script.config;
     caching := caching Script.config |}.

(** A store with three hits and one miss counted. *)
Definition counted_store : DiskCache :=
  {| rows := rows Script.warm; size_limit := 0; statistics := true;
     hits := 3; misses := 1; fault := Script.healthy |}.

(** The router after a miss and a hit. *)
Definition busy : Router.t :=
  Router.self
    (snd (Script.route_query "WHAT IS THE CAPITAL OF EGYPT?" None
            (snd (Script.route_query "What is the capital of Egypt?" None
                    (Script.start Script.fresh [inr ("Cairo.", 120%Q, 0.9%Q)]))))).

(** A classifier configuration with every key missing. *)
Definition bare : ClassificationConfig :=
  {| simple_keywords := None; advanced_keywords := None;
     query_length_thresholds := None |}.

(** 250 characters and no keyword. *)
Definition long_query : string := string_of_list_ascii (repeat "x"%char 250).

(** [config/models.yaml] without its [routing] section, and with a
    [routing] section that has no [confidence_thresholds]. *)
Definition unrouted : Loaded.Config :=
  {| Loaded.models := models Script.config;
     Loaded.routing := Loaded.Missing;
     Loaded.classification_config := classification_config Script.config;
     Loaded.caching := caching Script.config |}.

Definition no_thresholds : Loaded.Config :=
  {| Loaded.models := models Script.config;
     Loaded.routing :=
       Loaded.Dict {| Loaded.confidence_thresholds := Loaded.Missing;
                      Loaded.fallback_model := Some "ollama-simple" |};
     Loaded.classification_config := classification_config Script.config;
     Loaded.caching := caching Script.config |}.

End Demo.

(** * Properties *)

(** ** Strings *)

Lemma prefix_app (kw s : string) :
  String.prefix kw s = true <-> exists post, s = kw ++ post.
Proof.
  revert s. induction kw as [|c kw IH]; intros s.
  - split; [intros _; exists s; reflexivity | intros _; destruct s; reflexivity].
  - destruct s as [|d s]; simpl.
    + split; [discriminate | intros [post H]; discriminate].
    + destruct (ascii_dec c d) as [->|Hne].
      * rewrite IH. split; intros [post H]; exists post.
        -- simpl. now rewrite H.
        -- simpl in H. now inversion H.
      * split; [discriminate | intros [post H]; simpl in H; inversion H; congruence].
Qed.

Lemma contains_nil (kw : string) : Py.contains kw "" = String.prefix kw "".
Proof. unfold Py.contains. apply orb_false_r. Qed.

Lemma contains_cons (kw : string) (d : ascii) (s : string) :
  Py.contains kw (String d s) = String.prefix kw (String d s) || Py.contains kw s.
Proof. reflexivity. Qed.

(** [kw in s] holds exactly when [s] is some text, then [kw], then some
    text. *)
Lemma contains_spec (kw s : string) :
  Py.contains kw s = true <-> exists pre post, s = pre ++ kw ++ post.
Proof.
  induction s as [|d s IH].
  - rewrite contains_nil, prefix_app. split.
    + intros [post H]. exists "", post. exact H.
    + intros [pre [post H]]. destruct pre; simpl in H; [eauto | discriminate].
  - rewrite contains_cons, orb_true_iff, prefix_app, IH. split.
    + intros [[post H] | [pre [post H]]].
      * exists "", post. exact H.
      * exists (String d pre), post. simpl. now rewrite H.
    + intros [pre [post H]]. destruct pre as [|c pre]; simpl in H.
      * left. eauto.
      * right. inversion H. eauto.
Qed.





(** ** The rule-based classifier *)

Lemma ltb_lt (a b : Q) : Py.ltb a b = true <-> (a < b)%Q.
Proof.
  unfold Py.ltb. rewrite negb_true_iff, <- not_true_iff_false, Qle_bool_iff.
  split; [apply Qnot_le_lt | apply Qlt_not_le].
Qed.

Lemma geb_ge (a b : Q) : Py.geb a b = true <-> (b <= a)%Q.
Proof. unfold Py.geb. apply Qle_bool_iff. Qed.

Lemma any_keyword (keywords : option (list string)) (query : string) :
  existsb (fun kw => Py.contains kw (Py.lower query)) (default [] keywords) = true
  <-> mentions keywords query.
Proof.
  unfold mentions. rewrite existsb_exists. split.
  - intros [kw [Hin Hc]]. apply contains_spec in Hc as [pre [post Hc]]. eauto 6.
  - intros [kw [pre [post [Hin Hc]]]]. exists kw. split; [exact Hin|].
    apply contains_spec. eauto.
Qed.

Ltac decide_bool b H :=
  let E := fresh "E" in
  destruct b eqn:E;
  [ apply H in E
  | apply not_true_iff_false in E; rewrite H in E ].



(** ** The cache *)

Example md5_empty : MD5.hexdigest (MD5.encode_utf8 "") = "d41d8cd98f00b204e9800998ecf8427e".
Proof. vm_compute. reflexivity. Qed.

Example md5_abc : MD5.hexdigest (MD5.encode_utf8 "abc") = "900150983cd24fb0d6963f7d28e17f72".
Proof. vm_compute. reflexivity. Qed.

Example md5_two_blocks :
  MD5.hexdigest (MD5.encode_utf8
    "aaaaaaaaaaaaaaaaaaaaaaaaaaaaaaaaaaaaaaaaaaaaaaaaaaaaaaaaaaaaaaaaaaaaaa")
  = "0f5c6c4e740bfcc08c3c26ccb2673d46".
Proof. vm_compute. reflexivity. Qed.

Example query_hash_egypt :
  QueryCache._get_query_hash "What is the capital of Egypt?"
  = "506abd88ddc7099c39a2295730b3e04d".
Proof. vm_compute. reflexivity. Qed.

(** Trailing whitespace is part of the key. *)
Example query_hash_keeps_whitespace :
  QueryCache._get_query_hash "hello " <> QueryCache._get_query_hash "hello".
Proof. vm_compute. discriminate. Qed.

Arguments QueryCache._get_query_hash : simpl never.

Lemma clean_result_id (e : CacheEntry) :
  {| ce_query := ce_query e; ce_model_used := ce_model_used e;
     ce_response := ce_response e; ce_speed_ms := ce_speed_ms e;
     ce_accuracy := ce_accuracy e; ce_cost := ce_cost e;
     ce_classification := ce_classification e;
     ce_confidence := ce_confidence e |} = e.
Proof. destruct e; reflexivity. Qed.

Lemma query_hash_lower (q1 q2 : string) :
  Py.lower q1 = Py.lower q2 ->
  QueryCache._get_query_hash q1 = QueryCache._get_query_hash q2.
Proof. unfold QueryCache._get_query_hash. now intros ->. Qed.

(** What [set] leaves behind when the store takes the write. *)
Lemma set_rows cull (query : string) (e : CacheEntry) (now : Q) (c : QueryCache.t) :
  fault (QueryCache.cache c) OpSet = None ->
  QueryCache.set cull query e now c =
  (inr tt,
   {| QueryCache.ttl_seconds := QueryCache.ttl_seconds c;
      QueryCache.cache :=
        Disk.with_rows
          (cull (size_limit (QueryCache.cache c)) now
             (<[QueryCache._get_query_hash query := written e now]>
                (rows (QueryCache.cache c))))
          (QueryCache.cache c) |}).
Proof.
  intros Hs. unfold QueryCache.set, QueryCache.on_cache, zoom, Disk.set, Disk.storage,
    bind, gets, modify.
  rewrite Hs, clean_result_id. reflexivity.
Qed.

(** A row that never expires is served at every later time, whatever
    [ttl_seconds] is. *)
Lemma get_unexpiring (query : string) (e : CacheEntry) (t now : Q) (c : QueryCache.t) :
  fault (QueryCache.cache c) OpGet = None ->
  rows (QueryCache.cache c) !! QueryCache._get_query_hash query = Some (written e t) ->
  fst (QueryCache.get query now c) = inr (Some e).
Proof.
  intros Hg Hrow. unfold QueryCache.get, QueryCache.on_cache, zoom, Disk.get, Disk.storage,
    bind, gets, modify.
  rewrite Hg. cbn. rewrite Hrow. reflexivity.
Qed.

Lemma get_after_set cull (q1 q2 : string) (e : CacheEntry) (t now : Q) (c : QueryCache.t) :
  Py.lower q1 = Py.lower q2 ->
  serving c -> kept cull q1 e t c ->
  fst (QueryCache.get q2 now (snd (QueryCache.set cull q1 e t c))) = inr (Some e).
Proof.
  intros Hl [Hg Hs] Hk. rewrite set_rows by exact Hs. cbn [snd].
  apply get_unexpiring with (t := t); cbn; [exact Hg|].
  rewrite <- (query_hash_lower q1 q2 Hl). exact Hk.
Qed.

(** The configured time to live plays no part: whatever [ttl] the cache
    was built with, an entry written at [t] and not evicted for space is
    served at every time [now], however late. *)
Lemma served_at_any_age cull (ttl max_size : Z) (stored : DiskCache)
    (query : string) (e : CacheEntry) (t now : Q) :
  let c := QueryCache.init ttl max_size stored in
  serving c -> kept cull query e t c ->
  fst (QueryCache.get query now (snd (QueryCache.set cull query e t c))) = inr (Some e).
Proof. intros c Hs Hk. now apply get_after_set. Qed.

(** C1. The code does not honour the time to live. A cache built with
    [ttl_seconds = 60] takes an entry at time 0; one hour later, at time
    3600, [get] still returns it. *)
Theorem entry_served_past_ttl :
  let c0 := QueryCache.init 60 1000 Script.fresh in
  let c1 := snd (QueryCache.set Script.keep_all "What is Rocq?" Script.answer 0%Q c0) in
  QueryCache.ttl_seconds c1 = 60 /\
  fst (QueryCache.get "What is Rocq?" 3600%Q c1) = inr (Some Script.answer).
Proof.
  cbv zeta. split; [reflexivity|].
  apply (served_at_any_age Script.keep_all 60 1000 Script.fresh).
  - split; reflexivity.
  - unfold kept, Script.keep_all. apply lookup_insert_eq.
Qed.

(** Nothing is trimmed: one more character in front of the text or
    behind it gives another lower-cased text. *)
Lemma string_cons_neq (c : ascii) (s : string) : String c s <> s.
Proof.
  revert c. induction s as [|d s IH]; intros c H; [discriminate H|].
  inversion H. eapply IH. eassumption.
Qed.

Lemma lower_not_trimmed (query padded : string) (c : ascii) :
  padded = query ++ String c "" \/ padded = String c query ->
  Py.lower padded <> Py.lower query.
Proof.
  intros [-> | ->].
  - induction query as [|d query IH].
    + discriminate.
    + change (Py.lower (String d query ++ String c ""))
        with (String (Py.lower_ascii d) (Py.lower (query ++ String c ""))).
      intros H. apply IH. now inversion H.
  - apply string_cons_neq.
Qed.

(** C5. The cache key is the MD5 digest of the lower-cased query and of
    nothing else. Two queries have the same key exactly when their
    lower-cased texts are equal or collide under MD5. Nothing is
    trimmed: a query with one more character in front or behind, a blank
    for instance, has another lower-cased text, and the same key only by
    a collision. Two queries with the same lower-cased text are the same
    argument to [get] and to [set], and an entry stored under one of
    them is returned by [get] under the other while its row is in the
    store. *)
Theorem cache_key_is_lowercased_text (q1 q2 : string) :
  (QueryCache._get_query_hash q1 = QueryCache._get_query_hash q2
   <-> Py.lower q1 = Py.lower q2 \/ collision (Py.lower q1) (Py.lower q2)) /\
  (forall padded c,
     padded = q1 ++ String c "" \/ padded = String c q1 ->
     Py.lower padded <> Py.lower q1 /\
     (QueryCache._get_query_hash padded = QueryCache._get_query_hash q1 ->
      collision (Py.lower padded) (Py.lower q1))) /\
  (Py.lower q1 = Py.lower q2 ->
   (forall now c, QueryCache.get q1 now c = QueryCache.get q2 now c) /\
   (forall cull e now c, QueryCache.set cull q1 e now c = QueryCache.set cull q2 e now c) /\
   (forall cull e t now c,
      serving c -> kept cull q1 e t c ->
      fst (QueryCache.get q2 now (snd (QueryCache.set cull q1 e t c))) = inr (Some e))).
Proof.
  split; [|split].
  - unfold collision, QueryCache._get_query_hash. split.
    + intros H. destruct (string_dec (Py.lower q1) (Py.lower q2)); [left|right]; auto.
    + intros [-> | [_ H]]; [reflexivity | exact H].
  - intros padded c Hp. pose proof (lower_not_trimmed q1 padded c Hp) as Hne.
    split; [exact Hne|]. intros Hk. split; [exact Hne | exact Hk].
  - intros Hl. pose proof (query_hash_lower q1 q2 Hl) as Hk. repeat split.
    + intros now c. unfold QueryCache.get. now rewrite Hk.
    + intros cull e now c. unfold QueryCache.set. now rewrite Hk.
    + intros cull e t now c Hs Hkept. now apply get_after_set.
Qed.

Lemma cache_key_is_lowercased_text_witness :
  QueryCache._get_query_hash "What is Rocq?" = QueryCache._get_query_hash "WHAT IS ROCQ?" /\
  fst (QueryCache.get "WHAT IS ROCQ?" 5%Q
         (snd (QueryCache.set Script.keep_all "What is Rocq?" Script.answer 0%Q
                 (QueryCache.init 60 1000 Script.fresh))))
  = inr (Some Script.answer).
Proof.
  pose proof (cache_key_is_lowercased_text "What is Rocq?" "WHAT IS ROCQ?") as [Hkey [_ Hsame]].
  split.
  - apply Hkey. left. reflexivity.
  - apply Hsame.
    + reflexivity.
    + split; reflexivity.
    + unfold kept, Script.keep_all. apply lookup_insert_eq.
Defined.

(** [get] adds and removes no row; a hit refreshes one access time. *)
Lemma get_contents (query : string) (now : Q) (c c' : QueryCache.t)
    (r : Exn + option CacheEntry) :
  QueryCache.get query now c = (r, c') ->
  contents c' = contents c /\
  dom (rows (QueryCache.cache c')) = dom (rows (QueryCache.cache c)).
Proof.
  unfold QueryCache.get, QueryCache.on_cache, zoom, Disk.get, Disk.storage,
    bind, gets, modify, ret, contents.
  destruct c as [ttl d]. cbn.
  destruct (fault d OpGet); cbn; [intros [= <- <-]; auto|].
  destruct (rows d !! QueryCache._get_query_hash query) as [it|] eqn:E; cbn.
  - destruct (Disk.live now it); cbn; intros [= <- <-]; cbn; [|auto].
    split.
    + rewrite fmap_insert. apply insert_id. now rewrite lookup_fmap, E.
    + apply dom_insert_lookup_L. now rewrite E.
  - intros [= <- <-]. auto.
Qed.

(** A lookup that finds nothing, or raises, leaves every row as it is. *)
Lemma get_nothing_rows (query : string) (now : Q) (c c' : QueryCache.t)
    (r : Exn + option CacheEntry) :
  QueryCache.get query now c = (r, c') ->
  (forall e, r <> inr (Some e)) ->
  rows (QueryCache.cache c') = rows (QueryCache.cache c).
Proof.
  unfold QueryCache.get, QueryCache.on_cache, zoom, Disk.get, Disk.storage,
    bind, gets, modify, ret.
  destruct c as [ttl d]. cbn.
  destruct (fault d OpGet); cbn; [intros [= <- <-]; auto|].
  destruct (rows d !! QueryCache._get_query_hash query) as [it|] eqn:E; cbn.
  - destruct (Disk.live now it); cbn; intros [= <- <-] Hn; cbn; [|reflexivity].
    now destruct (Hn (value it)).
  - intros [= <- <-]. auto.
Qed.

(** *** Statistics *)

Section Stats.

Variable bytes : gmap string Item -> Z.

Ltac run_stats :=
  unfold QueryCache.get_stats, try_except, QueryCache.on_cache, zoom,
    Disk.stats, Disk.volume, Disk.len, Disk.storage, Disk.enable_statistics,
    bind, gets, modify, ret.

(** On a healthy store [get_stats] returns the volume, the number of
    rows and the hit rate of the counters. *)
Lemma get_stats_healthy (c : QueryCache.t) :
  (forall op, fault (QueryCache.cache c) op = None) ->
  let d := QueryCache.cache c in
  fst (QueryCache.get_stats bytes c) =
  inr {| stat_size := bytes (rows d);
         stat_items := Z.of_nat (size (rows d));
         stat_hit_rate := if 0 <? hits d + misses d
                          then (inject_Z (hits d) / inject_Z (hits d + misses d))%Q
                          else 0%Q |}.
Proof.
  intros H d. subst d. destruct c as [ttl d]. cbn in *. run_stats.
  repeat (cbn; rewrite H). reflexivity.
Qed.

(** Before any access the hit rate is 0. *)
Lemma get_stats_no_access (c : QueryCache.t) :
  (forall op, fault (QueryCache.cache c) op = None) ->
  hits (QueryCache.cache c) = 0 -> misses (QueryCache.cache c) = 0 ->
  exists s, fst (QueryCache.get_stats bytes c) = inr s /\ stat_hit_rate s = 0%Q.
Proof.
  intros H Hh Hm. rewrite get_stats_healthy by exact H. cbv zeta.
  rewrite Hh, Hm. eexists. split; reflexivity.
Qed.

(** When only the counters cannot be read, the handler answers with
    hit rate 0. *)
Lemma get_stats_degraded (c : QueryCache.t) (e : Exn) :
  let d := QueryCache.cache c in
  fault d OpStats = Some e -> fault d OpVolume = None -> fault d OpLen = None ->
  QueryCache.get_stats bytes c =
  (inr {| stat_size := bytes (rows d);
          stat_items := Z.of_nat (size (rows d));
          stat_hit_rate := 0%Q |}, c).
Proof.
  intros d Hs Hv Hl. subst d. destruct c as [ttl d]. cbn in *. run_stats.
  cbn. rewrite Hs. cbn. rewrite Hv. cbn. rewrite Hl. reflexivity.
Qed.

(** When the volume cannot be read, the handler asks for it again and
    the exception leaves [get_stats]. *)
Lemma get_stats_raises (c : QueryCache.t) (e : Exn) :
  fault (QueryCache.cache c) OpVolume = Some e ->
  fst (QueryCache.get_stats bytes c) = inl e.
Proof.
  intros Hv. destruct c as [ttl d]. cbn in *. run_stats. cbn.
  destruct (fault d OpStats); cbn; rewrite Hv; cbn; rewrite ?Hv; reflexivity.
Qed.

End Stats.

(** C8. [get_stats] can raise. On a store whose volume cannot be read
    ([Cache.volume()] raises a storage error) the call inside [try]
    raises, the handler calls [Cache.volume()] again, and that exception
    reaches the caller: no statistics are returned. *)
Theorem get_stats_raises_on_unreadable_volume :
  fst (QueryCache.get_stats Script.bytes (QueryCache.init 60 1000 Script.broken))
  = inl (StorageError "disk I/O error").
Proof. apply get_stats_raises. reflexivity. Qed.

(** ** The model selector *)

Lemma select_model_cases (config : Config) (label : string) (confidence : Q) :
  _select_model config label confidence =
  match confidence_thresholds (routing config) !! label with
  | Some (ThNumber t) =>
      if Py.geb confidence t
      then default (fallback_of config) (model_mapping !! label)
      else fallback_of config
  | _ => fallback_of config
  end.
Proof.
  unfold _select_model, fallback_of, meets.
  destruct (confidence_thresholds (routing config) !! label) as [[t|]|]; try reflexivity.
  destruct (Py.geb confidence t); reflexivity.
Qed.

Lemma passes_dec (config : Config) (label : string) (confidence : Q) :
  passes config label confidence \/ ~ passes config label confidence.
Proof.
  unfold passes.
  destruct (confidence_thresholds (routing config) !! label) as [[t|]|] eqn:E.
  - destruct (Py.geb confidence t) eqn:G.
    + left. exists t. split; [reflexivity | now apply geb_ge].
    + right. intros [t' [Ht Hle]]. inversion Ht; subst t'.
      apply geb_ge in Hle. congruence.
  - right. intros [t' [Ht _]]. discriminate.
  - right. intros [t' [Ht _]]. discriminate.
Qed.

Lemma select_model_passes (config : Config) (label : string) (confidence : Q) :
  passes config label confidence ->
  _select_model config label confidence
  = default (fallback_of config) (model_mapping !! label).
Proof.
  intros [t [Ht Hle]]. rewrite select_model_cases, Ht.
  apply geb_ge in Hle. now rewrite Hle.
Qed.

Lemma select_model_falls_back (config : Config) (label : string) (confidence : Q) :
  ~ passes config label confidence ->
  _select_model config label confidence = fallback_of config.
Proof.
  intros Hn. rewrite select_model_cases.
  destruct (confidence_thresholds (routing config) !! label) as [[t|]|] eqn:E; try reflexivity.
  destruct (Py.geb confidence t) eqn:G; [|reflexivity].
  exfalso. apply Hn. exists t. split; [exact E | now apply geb_ge].
Qed.

(** The ids the mapping can give. *)
Lemma model_mapping_range (label id : string) :
  model_mapping !! label = Some id ->
  In id ["ollama-simple"; "ollama-medium"; "gpt2-large"].
Proof.
  unfold model_mapping. intros H.
  apply lookup_insert_Some in H as [[_ <-] | [_ H]]; [simpl; auto|].
  apply lookup_insert_Some in H as [[_ <-] | [_ H]]; [simpl; auto|].
  apply lookup_singleton_Some in H as [_ <-]. simpl; auto.
Qed.

Lemma select_model_range (config : Config) (label : string) (confidence : Q) :
  In (_select_model config label confidence)
     ["ollama-simple"; "ollama-medium"; "gpt2-large"; fallback_of config].
Proof.
  rewrite select_model_cases.
  assert (Hf : In (fallback_of config)
                 ["ollama-simple"; "ollama-medium"; "gpt2-large"; fallback_of config])
    by (simpl; auto).
  destruct (confidence_thresholds (routing config) !! label) as [[t|]|]; try exact Hf.
  destruct (Py.geb confidence t); [|exact Hf].
  destruct (model_mapping !! label) as [id|] eqn:E; [|exact Hf].
  apply model_mapping_range in E. simpl in *. tauto.
Qed.

(** The dictionary as loaded, with its sections in place, selects as the
    sectioned configuration does. *)
Lemma sectioned_loaded_of (config : Config) : sectioned (loaded_of config) = Some config.
Proof. destruct config as [ms [th fb] cc ca]. reflexivity. Qed.

Lemma select_model_sectioned (loaded : Loaded.Config) (config : Config)
    (label : string) (confidence : Q) :
  sectioned loaded = Some config ->
  Loaded._select_model loaded label confidence = inr (_select_model config label confidence).
Proof.
  unfold sectioned, Loaded._select_model, _select_model.
  destruct (Loaded.routing loaded) as [|section|]; try discriminate.
  destruct (Loaded.confidence_thresholds section) as [|thresholds|]; try discriminate.
  intros H. injection H as <-. reflexivity.
Qed.

(** C3, as amended. On a configuration whose [routing] section holds a
    [confidence_thresholds] mapping the selector raises nothing and
    returns the model id mapped to the label (the fallback for a label
    the mapping does not have) if the label has a numeric confidence
    threshold and the confidence is at least that threshold; in every
    other case (confidence below the threshold, no threshold for the
    label, a threshold that cannot be compared) it returns the fallback
    id. The id returned is the mapped one only in the first case, unless
    the fallback is that same id. The two sections are read before the
    [try]: without [routing], or without [confidence_thresholds] in it,
    the selector raises [KeyError]; with a [routing] value that is not a
    mapping it raises [TypeError]; it raises in no other case, and a
    [confidence_thresholds] value that is not a mapping gives the
    fallback id. *)
Theorem select_model_decision (loaded : Loaded.Config) (label : string) (confidence : Q) :
  let result := Loaded._select_model loaded label confidence in
  (forall config, sectioned loaded = Some config ->
     let chosen := _select_model config label confidence in
     result = inr chosen /\
     (passes config label confidence ->
        chosen = default (fallback_of config) (model_mapping !! label)) /\
     (~ passes config label confidence -> chosen = fallback_of config) /\
     (confidence_thresholds (routing config) !! label = None -> chosen = fallback_of config) /\
     (confidence_thresholds (routing config) !! label = Some ThOther ->
        chosen = fallback_of config) /\
     (forall id, model_mapping !! label = Some id -> id <> fallback_of config ->
        (chosen = id <-> passes config label confidence))) /\
  (Loaded.routing loaded = Loaded.Missing -> result = inl (KeyError "routing")) /\
  (Loaded.routing loaded = Loaded.Other -> exists msg, result = inl (TypeError msg)) /\
  (forall section, Loaded.routing loaded = Loaded.Dict section ->
     (Loaded.confidence_thresholds section = Loaded.Missing ->
        result = inl (KeyError "confidence_thresholds")) /\
     (Loaded.confidence_thresholds section = Loaded.Other ->
        result = inr (default "ollama-simple" (Loaded.fallback_model section)))) /\
  (forall e, result = inl e ->
     Loaded.routing loaded = Loaded.Missing \/
     Loaded.routing loaded = Loaded.Other \/
     exists section, Loaded.routing loaded = Loaded.Dict section /\
                     Loaded.confidence_thresholds section = Loaded.Missing).
Proof.
  intros result. subst result. split; [|split; [|split; [|split]]].
  - intros config Hs chosen. subst chosen.
    split; [exact (select_model_sectioned _ _ _ _ Hs)|]. repeat split.
    + apply select_model_passes.
    + apply select_model_falls_back.
    + intros H. rewrite select_model_cases, H. reflexivity.
    + intros H. rewrite select_model_cases, H. reflexivity.
    + intros Hc. destruct (passes_dec config label confidence) as [Hp|Hp]; [exact Hp|].
      rewrite (select_model_falls_back _ _ _ Hp) in Hc. congruence.
    + intros Hp. rewrite (select_model_passes _ _ _ Hp), H. reflexivity.
  - unfold Loaded._select_model. now intros ->.
  - unfold Loaded._select_model. intros ->. eauto.
  - unfold Loaded._select_model. intros section ->. split; now intros ->.
  - unfold Loaded._select_model. intros e.
    destruct (Loaded.routing loaded) as [|section|]; [auto | | auto].
    destruct (Loaded.confidence_thresholds section) as [|thresholds|] eqn:E;
      [eauto | discriminate | discriminate].
Qed.

(** C3, as stated, fails: with the fallback configured as
    [ollama-simple] and the threshold 0.6 for [simple], the label
    [simple] at confidence 0.1 is below its threshold, and the selector
    returns [ollama-simple], which is the id mapped to [simple]. And on
    a configuration without its [routing] section the selector raises
    [KeyError]. *)
Lemma select_model_fallback_is_mapped_id :
  confidence_thresholds (routing Script.config) !! "simple" = Some (ThNumber 0.6%Q) /\
  (0.1 < 0.6)%Q /\
  model_mapping !! "simple" = Some "ollama-simple" /\
  fallback_model (routing Script.config) = Some "ollama-simple" /\
  _select_model Script.config "simple" 0.1%Q = "ollama-simple" /\
  Loaded._select_model (loaded_of Script.config) "simple" 0.1%Q = inr "ollama-simple" /\
  Loaded._select_model Demo.unrouted "simple" 0.1%Q = inl (KeyError "routing").
Proof. repeat split. Qed.

(** ** The router *)

Arguments QueryCache.get : simpl never.
Arguments QueryCache.set : simpl never.
Arguments _select_model : simpl never.
Arguments classify : simpl never.
Arguments _update_metrics : simpl never.
Arguments Router.generate_response : simpl never.
Arguments Router.route_query : simpl never.

Section Route.

Context {W : Type}.
Variable clock : W -> Q.
Variable huggingface ollama : ModelConfig -> string -> M W (string * Q * Q).
Variable cull : Z -> Q -> gmap string Item -> gmap string Item.

Ltac run_route :=
  unfold Router.route_query, Router.on_metrics, Router.on_cache, Router.on_self,
    Router.on_world, Router.time, lookup_model, lookup_cost, zoom, bind, gets,
    modify, ret, raise.

(** A forced model the registry does not have. *)
Lemma route_unknown_forced (query : string) (force_model : option string) (id : string)
    (p : Router.Process) :
  given force_model = Some id ->
  models (Router.config (Router.self p)) !! id = None ->
  Router.route_query clock huggingface ollama cull query force_model p
  = (inl (ValueError ("Model " ++ id ++ " not found in configuration")), counted p).
Proof.
  intros Hg Hm. run_route. cbn. rewrite Hg, Hm. reflexivity.
Qed.

(** A forced model of the registry: the backend is called, and nothing
    else is consulted. *)
Lemma route_forced (query : string) (force_model : option string) (id : string)
    (mc : ModelConfig) (p : Router.Process) :
  given force_model = Some id ->
  models (Router.config (Router.self p)) !! id = Some mc ->
  Router.route_query clock huggingface ollama cull query force_model p
  = match Router.generate_response huggingface ollama mc query (Router.world p) with
    | (inl e, w') =>
        (inl e, {| Router.self := Router.self (counted p); Router.world := w' |})
    | (inr (response, speed, accuracy), w') =>
        match mc_cost mc with
        | None =>
            (inl (KeyError "cost"),
             {| Router.self := Router.self (counted p); Router.world := w' |})
        | Some cost =>
            (inr {| query := query;
                    model_used := id;
                    response := response;
                    speed_ms := speed;
                    accuracy := accuracy;
                    cost := cost;
                    from_cache := false;
                    classification := "forced";
                    confidence := 1.0%Q |},
             {| Router.self :=
                  Router.with_metrics
                    (_update_metrics id speed cost
                       (Router.metrics (Router.self (counted p))))
                    (Router.self (counted p));
                Router.world := w' |})
        end
    end.
Proof.
  intros Hg Hm. run_route. cbn. rewrite Hg, Hm. cbn.
  destruct (Router.generate_response huggingface ollama mc query (Router.world p))
    as [[e | [[response speed] accuracy]] w']; cbn; [reflexivity|].
  destruct (mc_cost mc); reflexivity.
Qed.

(** A lookup that raises ends the call. *)
Lemma route_lookup_raises (query : string) (force_model : option string)
    (e : Exn) (c' : QueryCache.t) (p : Router.Process) :
  given force_model = None ->
  lookup clock query p = (inl e, c') ->
  Router.route_query clock huggingface ollama cull query force_model p
  = (inl e, {| Router.self := Router.with_cache c' (Router.self (counted p));
               Router.world := Router.world p |}).
Proof.
  unfold lookup. intros Hg Hl. run_route. cbn. rewrite Hg. cbn. rewrite Hl. reflexivity.
Qed.

(** A cache hit. *)
Lemma route_hit (query : string) (force_model : option string)
    (e : CacheEntry) (c' : QueryCache.t) (p : Router.Process) :
  given force_model = None ->
  lookup clock query p = (inr (Some e), c') ->
  Router.route_query clock huggingface ollama cull query force_model p
  = (inr (served e),
     {| Router.self :=
          Router.with_metrics
            (count_cache_hit (Router.metrics (Router.self (counted p))))
            (Router.with_cache c' (Router.self (counted p)));
        Router.world := Router.world p |}).
Proof.
  unfold lookup. intros Hg Hl. run_route. cbn. rewrite Hg. cbn. rewrite Hl. reflexivity.
Qed.

(** A cache miss whose selected model the registry does not have. *)
Lemma route_miss_unknown (query : string) (force_model : option string)
    (c' : QueryCache.t) (p : Router.Process) :
  given force_model = None ->
  lookup clock query p = (inr None, c') ->
  models (Router.config (Router.self p)) !! selected query p = None ->
  Router.route_query clock huggingface ollama cull query force_model p
  = (inl (KeyError (selected query p)),
     {| Router.self := Router.with_cache c' (Router.self (counted p));
        Router.world := Router.world p |}).
Proof.
  unfold lookup, selected. intros Hg Hl Hm. run_route. cbn. rewrite Hg. cbn. rewrite Hl. cbn.
  destruct (classify (Router.classifier (Router.self p)) query) as [label confidence].
  rewrite Hm. reflexivity.
Qed.

(** A cache miss whose backend call raises. *)
Lemma route_miss_backend_fails (query : string) (force_model : option string)
    (c' : QueryCache.t) (mc : ModelConfig) (e : Exn) (w' : W) (p : Router.Process) :
  given force_model = None ->
  lookup clock query p = (inr None, c') ->
  models (Router.config (Router.self p)) !! selected query p = Some mc ->
  Router.generate_response huggingface ollama mc query (Router.world p) = (inl e, w') ->
  Router.route_query clock huggingface ollama cull query force_model p
  = (inl e,
     {| Router.self := Router.with_cache c' (Router.self (counted p));
        Router.world := w' |}).
Proof.
  unfold lookup, selected. intros Hg Hl Hm Hb. run_route. cbn. rewrite Hg. cbn. rewrite Hl. cbn.
  destruct (classify (Router.classifier (Router.self p)) query) as [label confidence].
  rewrite Hm. cbn. rewrite Hb. reflexivity.
Qed.

(** C4. A call that forces a model of the registry leaves the cache
    object exactly as it was, whatever the backend does, and never
    consults it: with any other cache in its place the call has the same
    outcome, the same metrics and the same effect on the world, and that
    other cache is untouched. A result, when the backend replies and the
    model has a cost, carries classification [forced], confidence 1.0
    and [from_cache = False]; no other result is returned. (A forced
    model is a non-empty id: [if force_model:] takes the empty string
    for none.) *)
Theorem forced_route_bypasses_cache (query : string) (force_model : option string)
    (id : string) (mc : ModelConfig) (p : Router.Process) :
  given force_model = Some id ->
  models (Router.config (Router.self p)) !! id = Some mc ->
  let run := Router.route_query clock huggingface ollama cull query force_model in
  Router.cache (Router.self (snd (run p))) = Router.cache (Router.self p) /\
  (forall result, fst (run p) = inr result ->
     classification result = "forced" /\ confidence result = 1.0%Q /\
     from_cache result = false /\ model_used result = id) /\
  (forall response speed accuracy w' c,
     Router.generate_response huggingface ollama mc query (Router.world p)
     = (inr (response, speed, accuracy), w') ->
     mc_cost mc = Some c ->
     fst (run p) = inr {| query := query; model_used := id; response := response;
                          speed_ms := speed; accuracy := accuracy; cost := c;
                          from_cache := false; classification := "forced";
                          confidence := 1.0%Q |}) /\
  (forall other : QueryCache.t,
     let p' := {| Router.self := Router.with_cache other (Router.self p);
                  Router.world := Router.world p |} in
     fst (run p') = fst (run p) /\
     Router.metrics (Router.self (snd (run p'))) = Router.metrics (Router.self (snd (run p))) /\
     Router.world (snd (run p')) = Router.world (snd (run p)) /\
     Router.cache (Router.self (snd (run p'))) = other).
Proof.
  intros Hg Hm run. subst run.
  rewrite (route_forced query force_model id mc p Hg Hm).
  split; [|split; [|split]].
  - destruct (Router.generate_response huggingface ollama mc query (Router.world p))
      as [[e | [[response speed] accuracy]] w']; [reflexivity|].
    destruct (mc_cost mc); reflexivity.
  - intros result.
    destruct (Router.generate_response huggingface ollama mc query (Router.world p))
      as [[e | [[response speed] accuracy]] w']; [discriminate|].
    destruct (mc_cost mc); [|discriminate].
    intros [= <-]. repeat split.
  - intros response speed accuracy w' c Hb Hc. rewrite Hb, Hc. reflexivity.
  - intros other p'.
    rewrite (route_forced query force_model id mc p' Hg Hm). subst p'. cbn.
    destruct (Router.generate_response huggingface ollama mc query (Router.world p))
      as [[e | [[response speed] accuracy]] w']; [repeat split|].
    destruct (mc_cost mc); repeat split.
Qed.

(** What a lookup returns is the entry stored under the query's key. *)
Lemma lookup_stored (query : string) (e : CacheEntry) (c' : QueryCache.t)
    (p : Router.Process) :
  lookup clock query p = (inr (Some e), c') ->
  contents (Router.cache (Router.self p)) !! QueryCache._get_query_hash query = Some e.
Proof.
  unfold lookup, contents, QueryCache.get, QueryCache.on_cache, zoom, Disk.get,
    Disk.storage, bind, gets, modify, ret.
  destruct (Router.cache (Router.self p)) as [ttl d]. cbn.
  destruct (fault d OpGet); cbn; [discriminate|].
  rewrite lookup_fmap.
  destruct (rows d !! QueryCache._get_query_hash query) as [it|]; cbn; [|discriminate].
  destruct (Disk.live (clock (Router.world p)) it); cbn; [|discriminate].
  now intros [= <- _].
Qed.

(** C6. On a call that forces no model and finds the query in the
    cache, the result is the stored entry with [from_cache = True];
    [total_queries] and [cache_hits] go up by one and [model_usage],
    [total_cost] and [total_time] stay as they were; the world is
    untouched, so no backend is called; the store keeps the same keys
    with the same entries; and neither the configuration nor the
    classifier is consulted, since with any others in their place the
    call does the same. *)
Theorem cache_hit_frame (query : string) (force_model : option string)
    (e : CacheEntry) (c' : QueryCache.t) (p : Router.Process) :
  given force_model = None ->
  lookup clock query p = (inr (Some e), c') ->
  let run := Router.route_query clock huggingface ollama cull query force_model in
  let before := Router.metrics (Router.self p) in
  let after := Router.metrics (Router.self (snd (run p))) in
  fst (run p) = inr (served e) /\
  contents (Router.cache (Router.self p)) !! QueryCache._get_query_hash query = Some e /\
  total_queries after = total_queries before + 1 /\
  cache_hits after = cache_hits before + 1 /\
  model_usage after = model_usage before /\
  total_cost after = total_cost before /\
  total_time after = total_time before /\
  Router.world (snd (run p)) = Router.world p /\
  contents (Router.cache (Router.self (snd (run p)))) = contents (Router.cache (Router.self p)) /\
  dom (rows (QueryCache.cache (Router.cache (Router.self (snd (run p))))))
  = dom (rows (QueryCache.cache (Router.cache (Router.self p)))) /\
  (forall config classifier,
     let p' := {| Router.self := {| Router.config := config;
                                    Router.cache := Router.cache (Router.self p);
                                    Router.classifier := classifier;
                                    Router.metrics := Router.metrics (Router.self p) |};
                  Router.world := Router.world p |} in
     fst (run p') = fst (run p) /\
     Router.metrics (Router.self (snd (run p'))) = after /\
     Router.cache (Router.self (snd (run p'))) = Router.cache (Router.self (snd (run p))) /\
     Router.world (snd (run p')) = Router.world (snd (run p))).
Proof.
  intros Hg Hl run before after. subst run before after.
  pose proof (get_contents _ _ _ _ _ Hl) as [Hc Hd].
  rewrite (route_hit query force_model e c' p Hg Hl).
  do 10 (split; [first [reflexivity | assumption | exact (lookup_stored query e c' p Hl)]|]).
  intros config classifier p'.
  rewrite (route_hit query force_model e c' p' Hg Hl). repeat split.
Qed.

(** The rows after a call whose backend invocation fails. *)
Lemma backend_failure_run (query : string) (force_model : option string)
    (p : Router.Process) (e : Exn) (w' : W) :
  backend_fails clock huggingface ollama query force_model p e w' ->
  exists c',
    Router.route_query clock huggingface ollama cull query force_model p
    = (inl e, {| Router.self := Router.with_cache c' (Router.self (counted p));
                 Router.world := w' |}) /\
    rows (QueryCache.cache c') = rows (QueryCache.cache (Router.cache (Router.self p))).
Proof.
  intros [mc [Hi Hb]]. unfold invoked in Hi.
  destruct (given force_model) as [id|] eqn:Hg.
  - exists (Router.cache (Router.self p)). split; [|reflexivity].
    rewrite (route_forced query force_model id mc p Hg Hi), Hb.
    destruct p as [[cfg c cl m] w]. reflexivity.
  - destruct (lookup clock query p) as [[e0 | [e1|]] c'] eqn:Hl; cbn in Hi; try discriminate.
    exists c'. split.
    + exact (route_miss_backend_fails query force_model c' mc e w' p Hg Hl Hi Hb).
    + apply (get_nothing_rows _ _ _ _ _ Hl). discriminate.
Qed.

(** C7. When the backend invocation of a call fails, the call raises
    that same exception and returns no result; the backend has been
    invoked once, the world being as that one invocation left it; and
    the rows of the cache are those from before the call. *)
Theorem backend_failure_propagates (query : string) (force_model : option string)
    (p : Router.Process) (e : Exn) (w' : W) :
  backend_fails clock huggingface ollama query force_model p e w' ->
  let run := Router.route_query clock huggingface ollama cull query force_model p in
  fst run = inl e /\
  Router.world (snd run) = w' /\
  rows (QueryCache.cache (Router.cache (Router.self (snd run))))
  = rows (QueryCache.cache (Router.cache (Router.self p))) /\
  contents (Router.cache (Router.self (snd run))) = contents (Router.cache (Router.self p)).
Proof.
  intros Hf run. subst run.
  destruct (backend_failure_run query force_model p e w' Hf) as [c' [-> Hr]]. cbn.
  repeat split; [exact Hr|]. unfold contents. now rewrite Hr.
Qed.

(** C9. The selector reads the routing section only: two
    configurations with the same routing section select the same id,
    whatever their registries. The id is one of [ollama-simple],
    [ollama-medium], [gpt2-large] and the fallback. It is not checked
    against the registry: on a cache miss, when the registry lacks the
    selected id, the lookup that follows raises [KeyError] with that id. *)
Theorem select_model_ignores_registry (config1 config2 : Config)
    (label : string) (confidence : Q) :
  routing config1 = routing config2 ->
  let chosen := _select_model config1 label confidence in
  _select_model config2 label confidence = chosen /\
  In chosen ["ollama-simple"; "ollama-medium"; "gpt2-large"; fallback_of config1] /\
  (forall query force_model c' p,
     Router.config (Router.self p) = config2 ->
     given force_model = None ->
     lookup clock query p = (inr None, c') ->
     classify (Router.classifier (Router.self p)) query = (label, confidence) ->
     models config2 !! chosen = None ->
     fst (Router.route_query clock huggingface ollama cull query force_model p)
     = inl (KeyError chosen)).
Proof.
  intros Hr chosen. subst chosen.
  assert (Hsame : _select_model config2 label confidence
                  = _select_model config1 label confidence).
  { unfold _select_model. now rewrite Hr. }
  split; [exact Hsame | split; [apply select_model_range|]].
  intros query force_model c' p Hc Hg Hl Hcl Hm.
  assert (Hsel : selected query p = _select_model config1 label confidence).
  { unfold selected. now rewrite Hcl, Hc. }
  rewrite (route_miss_unknown query force_model c' p Hg Hl).
  - cbn. now rewrite Hsel.
  - now rewrite Hc, Hsel.
Qed.

(** C10. A call that raises because the forced model is unknown, or
    because the backend invocation fails, has already counted itself:
    [total_queries] is one more than before, while [cache_hits],
    [model_usage], [total_cost], [total_time] and the rows of the cache
    are as before. *)
Theorem failed_route_counts_query (query : string) (force_model : option string)
    (p : Router.Process) :
  unknown_forced force_model p \/
  (exists e w', backend_fails clock huggingface ollama query force_model p e w') ->
  let run := Router.route_query clock huggingface ollama cull query force_model p in
  let before := Router.metrics (Router.self p) in
  let after := Router.metrics (Router.self (snd run)) in
  (exists e, fst run = inl e) /\
  total_queries after = total_queries before + 1 /\
  cache_hits after = cache_hits before /\
  model_usage after = model_usage before /\
  total_cost after = total_cost before /\
  total_time after = total_time before /\
  rows (QueryCache.cache (Router.cache (Router.self (snd run))))
  = rows (QueryCache.cache (Router.cache (Router.self p))).
Proof.
  intros [[id [Hg Hm]] | [e [w' Hf]]] run before after; subst run before after.
  - rewrite (route_unknown_forced query force_model id p Hg Hm). cbn.
    repeat split. eauto.
  - destruct (backend_failure_run query force_model p e w' Hf) as [c' [-> Hr]]. cbn.
    repeat split; [eauto | exact Hr].
Qed.

End Route.

(** ** Runs *)

(** The scenario of the specification: the first call misses, selects
    the simple model and stores the result; the same text in capitals is
    then served from the cache without a second backend call. *)
Example egypt_twice :
  let p0 := Script.start Script.fresh [inr ("Cairo.", 120%Q, 0.9%Q)] in
  let '(r1, p1) := Script.route_query "What is the capital of Egypt?" None p0 in
  let '(r2, p2) := Script.route_query "WHAT IS THE CAPITAL OF EGYPT?" None p1 in
  match r1, r2 with
  | inr first, inr second =>
      (from_cache first, model_used first, classification first, confidence first)
      = (false, "ollama-simple", "simple", 0.90%Q) /\
      (from_cache second, response second, query second)
      = (true, "Cairo.", "What is the capital of Egypt?")
  | _, _ => False
  end /\
  Script.replies (Router.world p2) = [] /\
  total_queries (Router.metrics (Router.self p2)) = 2 /\
  cache_hits (Router.metrics (Router.self p2)) = 1 /\
  model_usage (Router.metrics (Router.self p2)) !! "ollama-simple" = Some 1.
Proof. vm_compute. repeat split. Qed.

(** ** The statements at concrete inputs *)

Lemma select_model_ignores_registry_witness :
  _select_model Script.no_models "advanced" 0.85%Q = "gpt2-large" /\
  models Script.no_models !! "gpt2-large" = None /\
  fst (Script.route_query "Analyze the data" None
         {| Router.self := Router.init Script.no_models Script.fresh;
            Router.world := {| Script.now := 0%Q; Script.replies := [] |} |})
  = inl (KeyError "gpt2-large").
Proof.
  pose proof (select_model_ignores_registry Script.now Script.transport Script.transport
                Script.keep_all Script.config Script.no_models "advanced" 0.85%Q eq_refl)
    as [Hsame [_ Hraise]].
  split; [exact Hsame | split; [reflexivity|]].
  apply Hraise with
    (c' := snd (QueryCache.get "Analyze the data" 0%Q
                  (QueryCache.init 3600 1000 Script.fresh)));
    vm_compute; reflexivity.
Defined.

Lemma forced_route_bypasses_cache_witness :
  let p := Script.start Script.warm [inr ("A proof assistant.", 300%Q, 0.85%Q)] in
  let run := Script.route_query "What is Rocq?" (Some "gpt2-large") p in
  Router.cache (Router.self (snd run)) = Router.cache (Router.self p) /\
  fst run = inr {| query := "What is Rocq?"; model_used := "gpt2-large";
                   response := "A proof assistant."; speed_ms := 300%Q;
                   accuracy := 0.85%Q; cost := 0.01%Q; from_cache := false;
                   classification := "forced"; confidence := 1.0%Q |}.
Proof.
  cbv zeta.
  pose proof (forced_route_bypasses_cache Script.now Script.transport Script.transport
                Script.keep_all "What is Rocq?" (Some "gpt2-large") "gpt2-large"
                {| mc_provider := Some "huggingface"; mc_model_name := Some "gpt2-large";
                   mc_cost := Some 0.01%Q; mc_max_length := Some 500 |}
                (Script.start Script.warm [inr ("A proof assistant.", 300%Q, 0.85%Q)])
                eq_refl eq_refl)
    as [Hcache [_ [Hresult _]]].
  split; [exact Hcache|].
  apply Hresult with (w' := {| Script.now := 1%Q; Script.replies := [] |});
    vm_compute; reflexivity.
Defined.

Lemma cache_hit_frame_witness :
  let p := Script.start Script.warm [] in
  let run := Script.route_query "WHAT IS ROCQ?" None p in
  fst run = inr (served Script.answer) /\
  total_queries (Router.metrics (Router.self (snd run))) = 1 /\
  cache_hits (Router.metrics (Router.self (snd run))) = 1.
Proof.
  cbv zeta.
  pose proof (cache_hit_frame Script.now Script.transport Script.transport
                Script.keep_all "WHAT IS ROCQ?" None Script.answer
                (snd (lookup Script.now "WHAT IS ROCQ?" (Script.start Script.warm [])))
                (Script.start Script.warm []) eq_refl)
    as Hframe.
  destruct Hframe as [Hresult [_ [Htotal [Hhits _]]]]; [vm_compute; reflexivity|].
  split; [exact Hresult | split; [exact Htotal | exact Hhits]].
Defined.

Lemma backend_failure_propagates_witness :
  let p := Script.start Script.warm [inl (GenerationError "Ollama API error: busy")] in
  let run := Script.route_query "Define a monad" None p in
  fst run = inl (GenerationError "Ollama API error: busy") /\
  rows (QueryCache.cache (Router.cache (Router.self (snd run))))
  = rows (QueryCache.cache (Router.cache (Router.self p))).
Proof.
  cbv zeta.
  pose proof (backend_failure_propagates Script.now Script.transport Script.transport
                Script.keep_all "Define a monad" None
                (Script.start Script.warm [inl (GenerationError "Ollama API error: busy")])
                (GenerationError "Ollama API error: busy")
                {| Script.now := 1%Q; Script.replies := [] |})
    as Hprop.
  destruct Hprop as [Hraise [_ [Hrows _]]].
  - exists (Script.ollama "phi" 0.001%Q). split; vm_compute; reflexivity.
  - split; [exact Hraise | exact Hrows].
Defined.

Lemma failed_route_counts_query_witness :
  let p := Script.start Script.warm [] in
  let run := Script.route_query "What is Rocq?" (Some "gpt-4") p in
  fst run = inl (ValueError "Model gpt-4 not found in configuration") /\
  total_queries (Router.metrics (Router.self (snd run))) = 1 /\
  model_usage (Router.metrics (Router.self (snd run))) = ∅.
Proof.
  cbv zeta.
  pose proof (failed_route_counts_query Script.now Script.transport Script.transport
                Script.keep_all "What is Rocq?" (Some "gpt-4")
                (Script.start Script.warm []))
    as Hcount.
  destruct Hcount as [_ [Htotal [_ [Husage _]]]].
  - left. exists "gpt-4". split; reflexivity.
  - split; [vm_compute; reflexivity | split; [exact Htotal | exact Husage]].
Defined.


Lemma select_model_decision_witness :
  Loaded._select_model (loaded_of Script.config) "advanced" 0.85%Q = inr "gpt2-large" /\
  Loaded._select_model (loaded_of Script.config) "advanced" 0.70%Q = inr "ollama-simple" /\
  Loaded._select_model Demo.unrouted "advanced" 0.85%Q = inl (KeyError "routing") /\
  Loaded._select_model Demo.no_thresholds "advanced" 0.85%Q
  = inl (KeyError "confidence_thresholds").
Proof.
  pose proof (select_model_decision (loaded_of Script.config) "advanced" 0.85%Q) as Hhigh.
  pose proof (select_model_decision (loaded_of Script.config) "advanced" 0.70%Q) as Hlow.
  pose proof (select_model_decision Demo.unrouted "advanced" 0.85%Q) as Hunrouted.
  pose proof (select_model_decision Demo.no_thresholds "advanced" 0.85%Q) as Hbare.
  cbv zeta in Hhigh, Hlow, Hunrouted, Hbare.
  destruct Hhigh as [Hhigh _]. destruct Hlow as [Hlow _].
  destruct (Hhigh Script.config (sectioned_loaded_of _)) as [Hrun [Hpasses _]].
  destruct (Hlow Script.config (sectioned_loaded_of _)) as [Hrun' [_ [Hbelow _]]].
  destruct Hunrouted as [_ [Hmissing _]]. destruct Hbare as [_ [_ [_ [Hsection _]]]].
  split; [|split; [|split]].
  - rewrite Hrun, Hpasses; [reflexivity|].
    exists 0.8%Q. split; [reflexivity | vm_compute; discriminate].
  - rewrite Hrun', Hbelow; [reflexivity|]. intros [t [Ht Hle]]. vm_compute in Ht.
    injection Ht as <-. vm_compute in Hle. apply Hle. reflexivity.
  - apply Hmissing. reflexivity.
  - destruct (Hsection _ eq_refl) as [Hkey _]. apply Hkey. reflexivity.
Defined.

(** * Further properties *)

(** ** Metrics *)

Lemma usage_total_comm (j1 j2 : string) (z1 z2 y : Z) :
  z1 + (z2 + y) = z2 + (z1 + y).
Proof. lia. Qed.

Lemma usage_total_insert (usage : gmap string Z) (id : string) (n : Z) :
  map_fold (fun _ n total => n + total) 0 (<[id := n]> usage)
  = map_fold (fun _ n total => n + total) 0 usage - default 0 (usage !! id) + n.
Proof.
  destruct (usage !! id) as [v|] eqn:E; cbn.
  - rewrite <- insert_delete_eq.
    rewrite map_fold_insert_L; [| intros; lia | apply lookup_delete_eq].
    rewrite (map_fold_delete_L _ _ id v usage); [lia | intros; lia | exact E].
  - rewrite map_fold_insert_L; [lia | intros; lia | exact E].
Qed.

(** [_update_metrics] counts one more use, under the model it is given
    and under no other. *)
Lemma update_metrics_usage (id : string) (speed price : Q) (m : Metrics) :
  model_usage (_update_metrics id speed price m) !! id
  = Some (default 0 (model_usage m !! id) + 1) /\
  (forall other, other <> id ->
     model_usage (_update_metrics id speed price m) !! other = model_usage m !! other) /\
  usage_total (_update_metrics id speed price m) = usage_total m + 1.
Proof.
  unfold usage_total, _update_metrics. cbn.
  destruct (model_usage m !! id) as [v|] eqn:E; cbn.
  - rewrite E. cbn. split; [apply lookup_insert_eq | split].
    + intros other Hne. now apply lookup_insert_ne.
    + rewrite usage_total_insert, E. cbn. lia.
  - assert (Hzero : <[id := 0]> (model_usage m) !! id = Some 0) by apply lookup_insert_eq.
    rewrite Hzero, insert_insert_eq. cbn.
    split; [apply lookup_insert_eq | split].
    + intros other Hne. now apply lookup_insert_ne.
    + rewrite usage_total_insert, E. cbn. lia.
Qed.

(** [get] changes no setting of the store. *)
Lemma get_keeps_settings (query : string) (now : Q) (c c' : QueryCache.t)
    (r : Exn + option CacheEntry) :
  QueryCache.get query now c = (r, c') ->
  size_limit (QueryCache.cache c') = size_limit (QueryCache.cache c) /\
  fault (QueryCache.cache c') = fault (QueryCache.cache c) /\
  QueryCache.ttl_seconds c' = QueryCache.ttl_seconds c /\
  ((exists found, r = inr found) -> fault (QueryCache.cache c) OpGet = None).
Proof.
  unfold QueryCache.get, QueryCache.on_cache, zoom, Disk.get, Disk.storage,
    bind, gets, modify, ret.
  destruct c as [ttl d]. cbn.
  destruct (fault d OpGet) eqn:F; cbn.
  - intros [= <- <-]. repeat split. intros [found Hf]. discriminate.
  - destruct (rows d !! QueryCache._get_query_hash query) as [it|]; cbn;
      [destruct (Disk.live now it); cbn|]; intros [= <- <-]; repeat split.
Qed.

(** ** The router, continued *)

Section Outcomes.

Context {W : Type}.
Variable clock : W -> Q.
Variable huggingface ollama : ModelConfig -> string -> M W (string * Q * Q).
Variable cull : Z -> Q -> gmap string Item -> gmap string Item.

Ltac run_route :=
  unfold Router.route_query, Router.on_metrics, Router.on_cache, Router.on_self,
    Router.on_world, Router.time, lookup_model, lookup_cost, zoom, bind, gets,
    modify, ret, raise.

(** A cache miss whose backend call returns. *)
Lemma route_miss_returns (query : string) (force_model : option string)
    (c' : QueryCache.t) (mc : ModelConfig) (reply : string * Q * Q) (w' : W) (price : Q)
    (p : Router.Process) :
  given force_model = None ->
  lookup clock query p = (inr None, c') ->
  models (Router.config (Router.self p)) !! selected query p = Some mc ->
  Router.generate_response huggingface ollama mc query (Router.world p) = (inr reply, w') ->
  mc_cost mc = Some price ->
  let entry := fresh_entry query (selected query p) reply price
                 (classify (Router.classifier (Router.self p)) query) in
  let stored := QueryCache.set cull query entry (clock w') c' in
  Router.route_query clock huggingface ollama cull query force_model p
  = (match fst stored with
     | inl e => inl e
     | inr _ => inr (computed entry)
     end,
     {| Router.self :=
          Router.with_cache (snd stored)
            (Router.with_metrics
               (_update_metrics (selected query p) (snd (fst reply)) price
                  (Router.metrics (Router.self (counted p))))
               (Router.with_cache c' (Router.self (counted p))));
        Router.world := w' |}).
Proof.
  unfold lookup, selected, fresh_entry. intros Hg Hl Hm Hb Hc. run_route. cbn.
  rewrite Hg. cbn. rewrite Hl. cbn.
  destruct (classify (Router.classifier (Router.self p)) query) as [label confidence].
  rewrite Hm. cbn. rewrite Hb. destruct reply as [[response speed] accuracy]. cbn.
  rewrite Hc. cbn.
  destruct (QueryCache.set cull query _ (clock w') c') as [[e|[]] c'']; reflexivity.
Qed.

(** A cache miss whose model has no cost. *)
Lemma route_miss_no_cost (query : string) (force_model : option string)
    (c' : QueryCache.t) (mc : ModelConfig) (reply : string * Q * Q) (w' : W)
    (p : Router.Process) :
  given force_model = None ->
  lookup clock query p = (inr None, c') ->
  models (Router.config (Router.self p)) !! selected query p = Some mc ->
  Router.generate_response huggingface ollama mc query (Router.world p) = (inr reply, w') ->
  mc_cost mc = None ->
  Router.route_query clock huggingface ollama cull query force_model p
  = (inl (KeyError "cost"),
     {| Router.self := Router.with_cache c' (Router.self (counted p));
        Router.world := w' |}).
Proof.
  unfold lookup, selected. intros Hg Hl Hm Hb Hc. run_route. cbn.
  rewrite Hg. cbn. rewrite Hl. cbn.
  destruct (classify (Router.classifier (Router.self p)) query) as [label confidence].
  rewrite Hm. cbn. rewrite Hb. destruct reply as [[response speed] accuracy]. cbn.
  rewrite Hc. reflexivity.
Qed.

(** The metrics after a call, whatever the call. *)
Lemma route_metrics_cases (query : string) (force_model : option string)
    (p : Router.Process) :
  let before := count_query (Router.metrics (Router.self p)) in
  let after := Router.metrics (Router.self (snd
                 (Router.route_query clock huggingface ollama cull query force_model p))) in
  after = before \/ after = count_cache_hit before \/
  exists id speed price, after = _update_metrics id speed price before.
Proof.
  cbv zeta.
  destruct (given force_model) as [id|] eqn:Hg.
  - destruct (models (Router.config (Router.self p)) !! id) as [mc|] eqn:Hm.
    + rewrite (route_forced clock huggingface ollama cull query force_model id mc p Hg Hm).
      destruct (Router.generate_response huggingface ollama mc query (Router.world p))
        as [[e | [[response speed] accuracy]] w']; [left; reflexivity|].
      destruct (mc_cost mc) as [price|]; [|left; reflexivity].
      right. right. exists id, speed, price. reflexivity.
    + rewrite (route_unknown_forced clock huggingface ollama cull query force_model id p Hg Hm).
      left. reflexivity.
  - destruct (lookup clock query p) as [[e | [e|]] c'] eqn:Hl.
    + rewrite (route_lookup_raises clock huggingface ollama cull query force_model e c' p Hg Hl).
      left. reflexivity.
    + rewrite (route_hit clock huggingface ollama cull query force_model e c' p Hg Hl).
      right. left. reflexivity.
    + destruct (models (Router.config (Router.self p)) !! selected query p) as [mc|] eqn:Hm.
      * destruct (Router.generate_response huggingface ollama mc query (Router.world p))
          as [[e | reply] w'] eqn:Hb.
        -- rewrite (route_miss_backend_fails clock huggingface ollama cull query force_model
                      c' mc e w' p Hg Hl Hm Hb).
           left. reflexivity.
        -- destruct (mc_cost mc) as [price|] eqn:Hc.
           ++ rewrite (route_miss_returns query force_model c' mc reply w' price p
                         Hg Hl Hm Hb Hc).
              right. right. exists (selected query p), (snd (fst reply)), price. reflexivity.
           ++ rewrite (route_miss_no_cost query force_model c' mc reply w' p Hg Hl Hm Hb Hc).
              left. reflexivity.
      * rewrite (route_miss_unknown clock huggingface ollama cull query force_model c' p
                   Hg Hl Hm).
        left. reflexivity.
Qed.

(** X1. A call that forces no model, misses the cache, and whose
    backend replies for a model with a cost: the result is the reply
    under the selected model and the classifier's verdict, with
    [from_cache = False]; the call is counted, the selected model's use
    count goes up by one, cost and latency are added to the totals and
    [cache_hits] stays; and, the store taking the write, its rows are
    the old rows with the new entry under the query's key, culled. *)
Theorem cache_miss_computes_and_stores (query : string) (force_model : option string)
    (c' : QueryCache.t) (mc : ModelConfig) (reply : string * Q * Q) (w' : W) (price : Q)
    (p : Router.Process) :
  given force_model = None ->
  lookup clock query p = (inr None, c') ->
  models (Router.config (Router.self p)) !! selected query p = Some mc ->
  Router.generate_response huggingface ollama mc query (Router.world p) = (inr reply, w') ->
  mc_cost mc = Some price ->
  fault (QueryCache.cache (Router.cache (Router.self p))) OpSet = None ->
  let run := Router.route_query clock huggingface ollama cull query force_model p in
  let before := Router.metrics (Router.self p) in
  let after := Router.metrics (Router.self (snd run)) in
  let store := QueryCache.cache (Router.cache (Router.self p)) in
  let entry := fresh_entry query (selected query p) reply price
                 (classify (Router.classifier (Router.self p)) query) in
  fst run = inr (computed entry) /\
  Router.world (snd run) = w' /\
  total_queries after = total_queries before + 1 /\
  cache_hits after = cache_hits before /\
  model_usage after !! selected query p
  = Some (default 0 (model_usage before !! selected query p) + 1) /\
  (forall other, other <> selected query p ->
     model_usage after !! other = model_usage before !! other) /\
  total_cost after = (total_cost before + price)%Q /\
  total_time after = (total_time before + snd (fst reply))%Q /\
  rows (QueryCache.cache (Router.cache (Router.self (snd run))))
  = cull (size_limit store) (clock w')
      (<[QueryCache._get_query_hash query := written entry (clock w')]> (rows store)).
Proof.
  intros Hg Hl Hm Hb Hc Hs run before after store entry.
  subst run before after store entry.
  pose proof (get_keeps_settings _ _ _ _ _ Hl) as [Hlimit [Hfault _]].
  pose proof (get_nothing_rows _ _ _ _ _ Hl) as Hrows.
  rewrite (route_miss_returns query force_model c' mc reply w' price p Hg Hl Hm Hb Hc).
  cbv zeta. rewrite set_rows by (rewrite Hfault; exact Hs). cbn.
  pose proof (update_metrics_usage (selected query p) (snd (fst reply)) price
                (count_query (Router.metrics (Router.self p)))) as [Hsel [Hother _]].
  repeat split; try assumption.
  rewrite Hlimit, Hrows; [reflexivity | discriminate].
Qed.

(** X2. After such a call, while the row it wrote is in the store, a
    second call with any query of the same lower-cased text is served
    from the cache: it returns the stored entry with [from_cache =
    True], leaves the world alone (no backend call), counts one more
    query and one more cache hit, and changes neither the use counts nor
    the totals. *)
Theorem miss_then_hit (query again : string) (force_model force_again : option string)
    (c' : QueryCache.t) (mc : ModelConfig) (reply : string * Q * Q) (w' : W) (price : Q)
    (p : Router.Process) :
  given force_model = None ->
  lookup clock query p = (inr None, c') ->
  models (Router.config (Router.self p)) !! selected query p = Some mc ->
  Router.generate_response huggingface ollama mc query (Router.world p) = (inr reply, w') ->
  mc_cost mc = Some price ->
  fault (QueryCache.cache (Router.cache (Router.self p))) OpSet = None ->
  let entry := fresh_entry query (selected query p) reply price
                 (classify (Router.classifier (Router.self p)) query) in
  kept cull query entry (clock w') c' ->
  Py.lower again = Py.lower query ->
  given force_again = None ->
  let first := Router.route_query clock huggingface ollama cull query force_model p in
  let second := Router.route_query clock huggingface ollama cull again force_again (snd first) in
  let before := Router.metrics (Router.self p) in
  let between := Router.metrics (Router.self (snd first)) in
  let after := Router.metrics (Router.self (snd second)) in
  fst first = inr (computed entry) /\
  fst second = inr (served entry) /\
  Router.world (snd second) = Router.world (snd first) /\
  total_queries after = total_queries before + 2 /\
  cache_hits after = cache_hits before + 1 /\
  model_usage after = model_usage between /\
  total_cost after = total_cost between /\
  total_time after = total_time between.
Proof.
  intros Hg Hl Hm Hb Hc Hs entry Hk Hlow Hg2 first second before between after.
  subst first second before between after.
  pose proof (get_keeps_settings _ _ _ _ _ Hl) as [Hlimit [Hfault [_ Hget]]].
  assert (Hserving : serving c').
  { split; rewrite Hfault; [apply Hget; eauto | exact Hs]. }
  rewrite (route_miss_returns query force_model c' mc reply w' price p Hg Hl Hm Hb Hc).
  cbv zeta. fold entry.
  destruct Hserving as [Hgets Hsets].
  rewrite set_rows by exact Hsets. cbn [fst snd].
  match goal with
  | |- context [Router.route_query _ _ _ _ again force_again ?p1] => set (p1' := p1)
  end.
  assert (Hhit : fst (lookup clock again p1') = inr (Some entry)).
  { unfold lookup. subst p1'. cbn.
    apply get_unexpiring with (t := clock w'); cbn; [exact Hgets|].
    rewrite (query_hash_lower again query Hlow). exact Hk. }
  destruct (lookup clock again p1') as [found c2] eqn:Hl2. cbn in Hhit. subst found.
  rewrite (route_hit clock huggingface ollama cull again force_again entry c2 p1' Hg2 Hl2).
  subst p1'. cbn. repeat split; unfold _update_metrics; cbn; lia.
Qed.

(** X3. Every call, whatever its arguments and however it ends, is
    counted once, and counts at most one thing more: either nothing, or
    one cache hit, or one use of a model. *)
Theorem every_call_is_counted_once (query : string) (force_model : option string)
    (p : Router.Process) :
  let before := Router.metrics (Router.self p) in
  let after := Router.metrics (Router.self (snd
                 (Router.route_query clock huggingface ollama cull query force_model p))) in
  total_queries after = total_queries before + 1 /\
  ((cache_hits after = cache_hits before /\ model_usage after = model_usage before) \/
   (cache_hits after = cache_hits before + 1 /\ model_usage after = model_usage before) \/
   (cache_hits after = cache_hits before /\ usage_total after = usage_total before + 1)).
Proof.
  cbv zeta.
  destruct (route_metrics_cases query force_model p) as [-> | [-> | [id [speed [price ->]]]]].
  - split; [reflexivity | left; split; reflexivity].
  - split; [reflexivity | right; left; split; reflexivity].
  - split; [reflexivity | right; right; split; [reflexivity|]].
    apply (update_metrics_usage id speed price
             (count_query (Router.metrics (Router.self p)))).
Qed.

(** X4. The counters of a router just built are consistent (no more
    cache hits and model uses than calls, none of them negative), and
    every call keeps them so. *)
Theorem metrics_stay_consistent (query : string) (force_model : option string)
    (p : Router.Process) :
  (forall config stored, consistent (Router.metrics (Router.init config stored))) /\
  (consistent (Router.metrics (Router.self p)) ->
   consistent (Router.metrics (Router.self (snd
     (Router.route_query clock huggingface ollama cull query force_model p))))).
Proof.
  split.
  - intros config stored. unfold consistent, usage_total. cbn.
    rewrite map_fold_empty. lia.
  - intros [Hh [Hu Hle]]. unfold consistent.
    destruct (route_metrics_cases query force_model p) as [-> | [-> | [id [speed [price ->]]]]].
    + unfold usage_total in *. cbn. lia.
    + unfold usage_total in *. cbn. lia.
    + pose proof (update_metrics_usage id speed price
                    (count_query (Router.metrics (Router.self p)))) as [_ [_ Ht]].
      rewrite Ht. unfold usage_total in *. unfold _update_metrics. cbn. lia.
Qed.

(** X5. A model whose provider is neither [huggingface] nor [ollama]
    is never invoked: [generate_response] raises [ValueError] without
    touching the world, so a call routed to it, forced or selected,
    raises that error after counting itself, with the world, the other
    counters and the rows of the cache as they were. A model with no
    provider goes to the Hugging Face transport. *)
Theorem unknown_provider_is_refused (query : string) (force_model : option string)
    (mc : ModelConfig) (provider : string) (p : Router.Process) :
  mc_provider mc = Some provider ->
  provider <> "huggingface" -> provider <> "ollama" ->
  invoked clock query force_model p = Some mc ->
  let run := Router.route_query clock huggingface ollama cull query force_model p in
  (forall w, Router.generate_response huggingface ollama mc query w
             = (inl (ValueError ("Unknown provider: " ++ provider)), w)) /\
  fst run = inl (ValueError ("Unknown provider: " ++ provider)) /\
  Router.world (snd run) = Router.world p /\
  Router.metrics (Router.self (snd run)) = count_query (Router.metrics (Router.self p)) /\
  rows (QueryCache.cache (Router.cache (Router.self (snd run))))
  = rows (QueryCache.cache (Router.cache (Router.self p))) /\
  (forall mc' w, mc_provider mc' = None ->
     Router.generate_response huggingface ollama mc' query w = huggingface mc' query w).
Proof.
  intros Hp Hh Ho Hi run. subst run.
  assert (Hgen : forall w, Router.generate_response huggingface ollama mc query w
                           = (inl (ValueError ("Unknown provider: " ++ provider)), w)).
  { intros w. unfold Router.generate_response. rewrite Hp. cbn.
    apply String.eqb_neq in Hh, Ho. rewrite Hh, Ho. reflexivity. }
  split; [exact Hgen|].
  destruct (backend_failure_run clock huggingface ollama cull query force_model p
              (ValueError ("Unknown provider: " ++ provider)) (Router.world p))
    as [c' [-> Hr]].
  { exists mc. split; [exact Hi | apply Hgen]. }
  cbn. repeat split; [exact Hr|].
  intros mc' w Hnone. unfold Router.generate_response. rewrite Hnone. reflexivity.
Qed.

End Outcomes.

(** ** Metrics snapshots and cache upkeep *)

Lemma ratio_bounds (a b : Z) :
  0 <= a <= b -> 0 < b -> (0 <= inject_Z a / inject_Z b <= 1)%Q.
Proof.
  intros [Ha Hab] Hb.
  assert (Hpos : (0 < inject_Z b)%Q) by (change 0%Q with (inject_Z 0); now rewrite <- Zlt_Qlt).
  split.
  - apply Qle_shift_div_l; [exact Hpos|]. rewrite Qmult_0_l.
    change 0%Q with (inject_Z 0). now rewrite <- Zle_Qle.
  - apply Qle_shift_div_r; [exact Hpos|]. rewrite Qmult_1_l. now rewrite <- Zle_Qle.
Qed.

Section Snapshots.

Variable bytes : gmap string Item -> Z.

Ltac run_stats :=
  unfold QueryCache.get_stats, try_except, QueryCache.on_cache, zoom,
    Disk.stats, Disk.volume, Disk.len, Disk.storage, Disk.enable_statistics,
    bind, gets, modify, ret.

(** [get_stats] leaves the rows, the counters and the condition of the
    store as they are. *)
Lemma get_stats_frame (c c' : QueryCache.t) (r : Exn + CacheStats) :
  QueryCache.get_stats bytes c = (r, c') ->
  rows (QueryCache.cache c') = rows (QueryCache.cache c) /\
  hits (QueryCache.cache c') = hits (QueryCache.cache c) /\
  misses (QueryCache.cache c') = misses (QueryCache.cache c) /\
  fault (QueryCache.cache c') = fault (QueryCache.cache c).
Proof.
  destruct c as [ttl d]. run_stats. cbn.
  destruct (fault d OpStats) eqn:Es; cbn;
    destruct (fault d OpVolume) eqn:Ev; cbn; rewrite ?Ev; cbn;
    destruct (fault d OpLen) eqn:El; cbn; rewrite ?Ev; cbn; rewrite ?El; cbn;
    intros [= <- <-]; repeat split.
Qed.

(** X6. On a store in working order with counters that are not
    negative, [get_stats] returns the number of rows, and a hit rate
    between 0 and 1 that is 0 when nothing has been counted; the rows of
    the store are untouched. *)
Theorem get_stats_reports_hit_rate (c : QueryCache.t) :
  (forall op, fault (QueryCache.cache c) op = None) ->
  0 <= hits (QueryCache.cache c) -> 0 <= misses (QueryCache.cache c) ->
  exists s,
    fst (QueryCache.get_stats bytes c) = inr s /\
    stat_items s = Z.of_nat (size (rows (QueryCache.cache c))) /\
    stat_size s = bytes (rows (QueryCache.cache c)) /\
    (0 <= stat_hit_rate s <= 1)%Q /\
    (hits (QueryCache.cache c) + misses (QueryCache.cache c) = 0 -> stat_hit_rate s = 0%Q) /\
    rows (QueryCache.cache (snd (QueryCache.get_stats bytes c))) = rows (QueryCache.cache c).
Proof.
  intros Hf Hh Hm. eexists. split; [apply get_stats_healthy; exact Hf|].
  cbv zeta. cbn. repeat split.
  - destruct (0 <? hits (QueryCache.cache c) + misses (QueryCache.cache c)) eqn:E.
    + apply Z.ltb_lt in E. apply ratio_bounds; lia.
    + apply Qle_refl.
  - destruct (0 <? hits (QueryCache.cache c) + misses (QueryCache.cache c)) eqn:E.
    + apply Z.ltb_lt in E. apply ratio_bounds; lia.
    + discriminate.
  - intros H0. rewrite H0. reflexivity.
  - destruct (QueryCache.get_stats bytes c) as [r c'] eqn:E.
    apply (get_stats_frame c c' r E).
Qed.

(** X7. A snapshot of [get_metrics] carries the counters as they are
    and changes neither them nor the rows of the cache. With consistent
    counters the cache hit rate lies between 0 and 1; before any call
    the three rates are 0; when every call was a cache hit the two
    averages are 0. *)
Theorem get_metrics_rates (r r' : Router.t) (snap : MetricsSnapshot) :
  get_metrics bytes r = (inr snap, r') ->
  consistent (Router.metrics r) ->
  let m := Router.metrics r in
  snap_metrics snap = m /\
  Router.metrics r' = m /\
  rows (QueryCache.cache (Router.cache r')) = rows (QueryCache.cache (Router.cache r)) /\
  (0 <= cache_hit_rate snap <= 1)%Q /\
  (total_queries m = 0 ->
     cache_hit_rate snap = 0%Q /\ avg_cost_per_query snap = 0%Q /\
     avg_time_per_query snap = 0%Q) /\
  (total_queries m = cache_hits m ->
     avg_cost_per_query snap = 0%Q /\ avg_time_per_query snap = 0%Q).
Proof.
  intros Hrun [Hh [Hu Hle]] m. subst m.
  unfold get_metrics, bind, zoom, gets, ret in Hrun.
  destruct (QueryCache.get_stats bytes (Router.cache r)) as [[e|stats] c'] eqn:Hs;
    cbn in Hrun; [discriminate|].
  injection Hrun as <- <-. cbn.
  pose proof (get_stats_frame _ _ _ Hs) as [Hrows _].
  repeat split; try assumption.
  - destruct (0 <? total_queries (Router.metrics r)) eqn:E; [|apply Qle_refl].
    apply Z.ltb_lt in E. apply ratio_bounds; lia.
  - destruct (0 <? total_queries (Router.metrics r)) eqn:E; [|discriminate].
    apply Z.ltb_lt in E. apply ratio_bounds; lia.
  - rewrite H. reflexivity.
  - rewrite H. destruct (0 <? 0 - cache_hits (Router.metrics r)) eqn:E; [|reflexivity].
    apply Z.ltb_lt in E. lia.
  - rewrite H. destruct (0 <? 0 - cache_hits (Router.metrics r)) eqn:E; [|reflexivity].
    apply Z.ltb_lt in E. lia.
  - rewrite H, Z.sub_diag. reflexivity.
  - rewrite H, Z.sub_diag. reflexivity.
Qed.

End Snapshots.

(** ** The classifier, continued *)

Lemma rule_based_keyword (config : ClassificationConfig) (query : string) :
  mentions (advanced_keywords config) query ->
  _rule_based_classification config query = ("advanced", 0.85%Q).
Proof.
  intros H. apply any_keyword in H. unfold _rule_based_classification. now rewrite H.
Qed.

Lemma rule_based_length (config : ClassificationConfig) (query : string) :
  ~ mentions (advanced_keywords config) query ->
  _rule_based_classification config query
  = if Py.ltb (advanced_length config) (Py.len query) then ("advanced", 0.70%Q)
    else if existsb (fun kw => Py.contains kw (Py.lower query))
              (default [] (simple_keywords config))
            && Py.ltb (Py.len query) (simple_length config)
         then ("simple", 0.90%Q)
         else ("medium", 0.80%Q).
Proof.
  intros H. rewrite <- any_keyword in H. apply not_true_is_false in H.
  unfold _rule_based_classification, advanced_length, simple_length. rewrite H. cbn.
  destruct (Py.ltb _ (Py.len query)); [reflexivity|].
  destruct (existsb _ (default [] (simple_keywords config))); reflexivity.
Qed.

(** X9. The rule-based classifier has four verdicts and no other:
    [advanced] at 0.85 or 0.70, [simple] at 0.90, [medium] at 0.80. The
    confidence 0.75 that the source writes for [simple] is never
    returned. *)
Theorem rule_based_verdicts (config : ClassificationConfig) (query : string) :
  let verdict := _rule_based_classification config query in
  (verdict = ("advanced", 0.85%Q) \/ verdict = ("advanced", 0.70%Q) \/
   verdict = ("simple", 0.90%Q) \/ verdict = ("medium", 0.80%Q)) /\
  ~ (snd verdict == 0.75)%Q.
Proof.
  cbv zeta. unfold _rule_based_classification.
  destruct (existsb _ (default [] (advanced_keywords config)));
    destruct (existsb _ (default [] (simple_keywords config)));
    destruct (Py.ltb _ (Py.len query));
    destruct (Py.ltb (Py.len query) _); cbn;
    (split; [tauto | intros H; vm_compute in H; discriminate]).
Qed.

(** X10. Without keyword lists (the keys missing from the
    configuration, or the lists empty) the verdict depends on the length
    alone: [advanced] at 0.70 above the advanced threshold, [medium] at
    0.80 otherwise, and never [simple]. With no thresholds configured
    either, the bound is 200 characters. *)
Theorem rule_based_without_keywords (config : ClassificationConfig) (query : string) :
  default [] (simple_keywords config) = [] ->
  default [] (advanced_keywords config) = [] ->
  let verdict := _rule_based_classification config query in
  (is_long config query -> verdict = ("advanced", 0.70%Q)) /\
  (~ is_long config query -> verdict = ("medium", 0.80%Q)) /\
  fst verdict <> "simple" /\
  (query_length_thresholds config = None ->
   (is_long config query <-> (200 < String.length query)%nat)).
Proof.
  intros Hs Ha verdict. subst verdict.
  assert (Hno : ~ mentions (advanced_keywords config) query).
  { intros [kw [pre [post [Hin _]]]]. rewrite Ha in Hin. destruct Hin. }
  assert (Hdefault : query_length_thresholds config = None ->
            (is_long config query <-> (200 < String.length query)%nat)).
  { intros Hnone. unfold is_long, advanced_length, Py.len. rewrite Hnone. cbn.
    change 200%Q with (inject_Z 200). rewrite <- Zlt_Qlt. lia. }
  rewrite (rule_based_length config query Hno), Hs. cbn.
  unfold is_long in *.
  destruct (Py.ltb (advanced_length config) (Py.len query)) eqn:E.
  - apply ltb_lt in E.
    split; [reflexivity | split; [contradiction | split; [discriminate | exact Hdefault]]].
  - apply not_true_iff_false in E. rewrite ltb_lt in E.
    split; [contradiction | split; [reflexivity | split; [discriminate | exact Hdefault]]].
Qed.

(** X11. The empty string is a substring of every text: when it is
    among the advanced keywords, every query, the empty one included, is
    [advanced] at 0.85. *)
Theorem empty_keyword_matches_everything (config : ClassificationConfig) (query : string) :
  In "" (default [] (advanced_keywords config)) ->
  _rule_based_classification config query = ("advanced", 0.85%Q).
Proof.
  intros Hin. apply rule_based_keyword.
  exists "", "", (Py.lower query). split; [exact Hin | reflexivity].
Qed.

(** X12. Classifier and selector together, with no trained model and
    a numeric threshold [t] for [advanced]: a query that holds an
    advanced keyword is sent to [gpt2-large] when [t] is at most 0.85
    and to the fallback model otherwise; a query that is only long is
    sent to [gpt2-large] when [t] is at most 0.70 and to the fallback
    model otherwise. *)
Theorem rule_based_routing {W : Type} (p : @Router.Process W) (query : string) (t : Q) :
  cl_model (Router.classifier (Router.self p)) = None ->
  confidence_thresholds (routing (Router.config (Router.self p))) !! "advanced"
  = Some (ThNumber t) ->
  let rules := cl_config (Router.classifier (Router.self p)) in
  let fallback := fallback_of (Router.config (Router.self p)) in
  let keyword := mentions (advanced_keywords rules) query in
  (keyword -> (t <= 0.85)%Q -> selected query p = "gpt2-large") /\
  (keyword -> (0.85 < t)%Q -> selected query p = fallback) /\
  (~ keyword -> is_long rules query -> (t <= 0.70)%Q -> selected query p = "gpt2-large") /\
  (~ keyword -> is_long rules query -> (0.70 < t)%Q -> selected query p = fallback).
Proof.
  intros Hcl Ht rules fallback keyword. subst rules fallback keyword.
  unfold selected, classify. rewrite Hcl.
  repeat split.
  - intros Hk Hle. rewrite (rule_based_keyword _ _ Hk), select_model_cases, Ht.
    apply geb_ge in Hle. now rewrite Hle.
  - intros Hk Hlt. rewrite (rule_based_keyword _ _ Hk), select_model_cases, Ht.
    destruct (Py.geb 0.85 t) eqn:E; [|reflexivity].
    apply geb_ge in E. now apply Qlt_not_le in Hlt.
  - intros Hk Hl Hle. rewrite (rule_based_length _ _ Hk).
    apply ltb_lt in Hl. rewrite Hl, select_model_cases, Ht.
    apply geb_ge in Hle. now rewrite Hle.
  - intros Hk Hl Hlt. rewrite (rule_based_length _ _ Hk).
    apply ltb_lt in Hl. rewrite Hl, select_model_cases, Ht.
    destruct (Py.geb 0.70 t) eqn:E; [|reflexivity].
    apply geb_ge in E. now apply Qlt_not_le in Hlt.
Qed.

(** *** Features *)

Lemma has_key_inj (a b : string) : "has_" ++ a = "has_" ++ b -> a = b.
Proof. cbn. intros H. now injection H. Qed.

Lemma flag_keywords_other (query_lower : string) (keywords : list string)
    (features : gmap string Feature) (key : string) :
  (forall kw, In kw keywords -> key <> "has_" ++ kw) ->
  flag_keywords query_lower keywords features !! key = features !! key.
Proof.
  unfold flag_keywords. revert features.
  induction keywords as [|k rest IH]; intros features Hk; cbn; [reflexivity|].
  rewrite IH by (intros kw Hin; apply Hk; now right).
  apply lookup_insert_ne. intros Heq. apply (Hk k); [now left | now symmetry].
Qed.

Lemma flag_keywords_flag (query_lower : string) (keywords : list string)
    (features : gmap string Feature) (kw : string) :
  In kw keywords ->
  flag_keywords query_lower keywords features !! ("has_" ++ kw)
  = Some (FInt (if Py.contains kw query_lower then 1 else 0)).
Proof.
  revert features.
  induction keywords as [|k rest IH]; intros features Hin; [destruct Hin|].
  destruct (in_dec string_dec kw rest) as [Hrest|Hrest].
  - unfold flag_keywords in *. cbn. now apply IH.
  - destruct Hin as [->|Hin]; [|contradiction].
    change (flag_keywords query_lower (kw :: rest) features)
      with (flag_keywords query_lower rest
              (<["has_" ++ kw := FInt (if Py.contains kw query_lower then 1 else 0)]>
                 features)).
    rewrite flag_keywords_other; [apply lookup_insert_eq|].
    intros kw' Hin' Heq. apply has_key_inj in Heq. now subst kw'.
Qed.

(** X13. In the features of a query, every configured keyword has its
    flag [has_<keyword>], 1 when the keyword occurs in the lower-cased
    query and 0 when not; [length] and [word_count] are always those of
    the query; and [has_question_mark] tells whether the query holds a
    question mark unless [question_mark] is itself a configured keyword,
    whose flag then takes its place. *)
Theorem extract_features_flags (config : ClassificationConfig) (query : string) :
  let features := extract_features config query in
  let keywords := (default [] (simple_keywords config)
                   ++ default [] (advanced_keywords config))%list in
  (forall kw, In kw keywords ->
     features !! ("has_" ++ kw)
     = Some (FInt (if Py.contains kw (Py.lower query) then 1 else 0))) /\
  features !! "length" = Some (FInt (Z.of_nat (String.length query))) /\
  features !! "word_count" = Some (FInt (Str.word_count query)) /\
  (~ In "question_mark" keywords ->
     features !! "has_question_mark" = Some (FBool (Py.contains "?" query))) /\
  (~ In "exclamation" keywords ->
     features !! "has_exclamation" = Some (FBool (Py.contains "!" query))).
Proof.
  cbv zeta. unfold extract_features.
  split; [|split; [|split; [|split]]].
  - intros kw Hin. apply in_app_or in Hin.
    destruct (in_dec string_dec kw (default [] (advanced_keywords config))) as [Ha|Ha].
    + now apply flag_keywords_flag.
    + destruct Hin as [Hs|Hs]; [|contradiction].
      rewrite flag_keywords_other; [now apply flag_keywords_flag|].
      intros kw' Hin' Heq. apply has_key_inj in Heq. now subst kw'.
  - rewrite !flag_keywords_other by (intros kw _; discriminate). reflexivity.
  - rewrite !flag_keywords_other by (intros kw _; discriminate). reflexivity.
  - intros Hq. rewrite !flag_keywords_other; [reflexivity | |];
      intros kw Hin Heq; apply (has_key_inj "question_mark" kw) in Heq; subst kw;
      apply Hq, in_or_app; auto.
  - intros Hq. rewrite !flag_keywords_other; [reflexivity | |];
      intros kw Hin Heq; apply (has_key_inj "exclamation" kw) in Heq; subst kw;
      apply Hq, in_or_app; auto.
Qed.

(** ** Accuracy and cost estimates *)

Lemma blank_nil : blank "".
Proof. intros c pre post H. destruct pre; discriminate. Qed.

Lemma blank_cons (c : ascii) (s : string) :
  blank (String c s) <-> Str.isspace c = true /\ blank s.
Proof.
  split.
  - intros H. split.
    + apply (H c "" s). reflexivity.
    + intros d pre post ->. apply (H d (String c pre) post). reflexivity.
  - intros [Hc Hs] d pre post H. destruct pre as [|e pre]; cbn in H.
    + now injection H as <- _.
    + injection H as _ H. now apply (Hs d pre post).
Qed.

Lemma flush_nil (word : string) : Str.flush word = [] <-> word = "".
Proof. destruct word; cbn; split; congruence. Qed.

Lemma split_from_nil (word s : string) :
  Str.split_from word s = [] <-> word = "" /\ blank s.
Proof.
  revert word. induction s as [|c s IH]; intros word; cbn.
  - rewrite flush_nil. split; [intros ->; split; [reflexivity | apply blank_nil] | tauto].
  - rewrite blank_cons. destruct (Str.isspace c).
    + split.
      * intros H. apply app_eq_nil in H as [Hw Hs].
        apply flush_nil in Hw. apply IH in Hs. tauto.
      * intros [-> [_ Hs]]. cbn. apply IH. tauto.
    + split.
      * intros H. apply IH in H as [H _]. destruct word; discriminate.
      * intros [_ [H _]]. discriminate.
Qed.

(** A text has no word exactly when it is blank. *)
Lemma word_count_zero (s : string) : Str.word_count s = 0 <-> blank s.
Proof.
  unfold Str.word_count, Str.split. split.
  - intros H. apply (split_from_nil "" s).
    destruct (Str.split_from "" s); [reflexivity | cbn in H; lia].
  - intros H. assert (Hnil : Str.split_from "" s = []) by (apply split_from_nil; auto).
    now rewrite Hnil.
Qed.

Lemma min_le_l (a b : Q) : (Str.min a b <= a)%Q.
Proof.
  unfold Str.min. destruct (Py.ltb b a) eqn:E; [|apply Qle_refl].
  apply ltb_lt in E. now apply Qlt_le_weak.
Qed.

Lemma min_le_r (a b : Q) : (Str.min a b <= b)%Q.
Proof.
  unfold Str.min. destruct (Py.ltb b a) eqn:E; [apply Qle_refl|].
  apply not_true_iff_false in E. rewrite ltb_lt in E. now apply Qnot_lt_le.
Qed.

Lemma min_pos (a b : Q) : (0 < a)%Q -> (0 < b)%Q -> (0 < Str.min a b)%Q.
Proof. intros Ha Hb. unfold Str.min. now destruct (Py.ltb b a). Qed.

Lemma max_one_pos (x : Q) : (0 < Str.max 1 x)%Q.
Proof.
  unfold Str.max. destruct (Py.ltb 1 x) eqn:E; [|reflexivity].
  apply ltb_lt in E. apply Qlt_trans with 1%Q; [reflexivity | exact E].
Qed.

(** The share of the response in the estimate: above 0 and at most 1
    as soon as the response has a word. *)
Lemma quality_bounds (response_words query_words : Z) :
  0 < response_words ->
  let quality := Str.min 1.0%Q (inject_Z response_words
                                / Str.max 1%Q (inject_Z query_words))%Q in
  (0 < quality <= 1)%Q.
Proof.
  intros Hr quality. subst quality. split.
  - apply min_pos; [reflexivity|].
    apply Qlt_shift_div_l; [apply max_one_pos|]. rewrite Qmult_0_l.
    change 0%Q with (inject_Z 0). now rewrite <- Zlt_Qlt.
  - apply Qle_trans with 1.0%Q; [apply min_le_l | discriminate].
Qed.

Lemma tier_range (model_name : string) :
  tier model_name = 0.8%Q \/ tier model_name = 0.85%Q \/ tier model_name = 0.7%Q.
Proof.
  unfold tier.
  destruct (Py.contains "medium" model_name || Py.contains "gemma" model_name); [auto|].
  destruct (Py.contains "large" model_name); auto.
Qed.

Lemma tier_bounds (model_name : string) (bonus : bool) :
  let base := if bonus then (tier model_name + 0.1)%Q else tier model_name in
  (0 < base <= 0.95)%Q.
Proof.
  cbv zeta. destruct (tier_range model_name) as [-> | [-> | ->]]; destruct bonus;
    split; reflexivity || discriminate.
Qed.

(** The estimate from a base accuracy and the two word counts. *)
Lemma estimate_bounds (base : Q) (response_words query_words : Z) :
  (0 < base)%Q -> 0 < response_words ->
  let a := Str.min 0.95%Q
             (base * Str.min 1.0%Q (inject_Z response_words
                                    / Str.max 1%Q (inject_Z query_words)))%Q in
  (0 < a <= 0.95)%Q /\ (a <= base)%Q.
Proof.
  intros Hb Hr a. subst a.
  destruct (quality_bounds response_words query_words Hr) as [Hq0 Hq1].
  repeat split.
  - apply min_pos; [reflexivity|]. now apply Qmult_lt_0_compat.
  - apply min_le_l.
  - eapply Qle_trans; [apply min_le_r|].
    rewrite <- (Qmult_1_r base) at 2. apply Qmult_le_l; assumption.
Qed.

(** X14. [_estimate_accuracy] raises [KeyError] for a model without
    [model_name]. Otherwise it returns an estimate between 0 and 0.95
    that is 0 exactly when the response is blank (no word in it), and
    never above the base accuracy of the model: the tier of its name,
    plus 0.1 for the provider [ollama]. *)
Theorem estimate_accuracy_bounds (model_config : ModelConfig) (query response : string) :
  (mc_model_name model_config = None ->
   ModelManager._estimate_accuracy model_config query response
   = inl (KeyError "model_name")) /\
  (forall model_name, mc_model_name model_config = Some model_name ->
   exists a,
     ModelManager._estimate_accuracy model_config query response = inr a /\
     (0 <= a <= 0.95)%Q /\
     ((a == 0)%Q <-> blank response) /\
     (a <= tier model_name + 0.1)%Q /\
     (mc_provider model_config <> Some "ollama" -> (a <= tier model_name)%Q)).
Proof.
  unfold ModelManager._estimate_accuracy. split; [intros ->; reflexivity|].
  intros model_name ->. fold (tier model_name).
  set (bonus := match mc_provider model_config with
                | Some provider => String.eqb provider "ollama"
                | None => false
                end).
  assert (Hbase : match mc_provider model_config with
                  | Some provider =>
                      if String.eqb provider "ollama" then (tier model_name + 0.1)%Q
                      else tier model_name
                  | None => tier model_name
                  end = if bonus then (tier model_name + 0.1)%Q else tier model_name).
  { subst bonus. destruct (mc_provider model_config); reflexivity. }
  rewrite Hbase.
  assert (Hplain : mc_provider model_config <> Some "ollama" -> bonus = false).
  { subst bonus. destruct (mc_provider model_config) as [provider|]; [|reflexivity].
    intros Hne. apply String.eqb_neq. congruence. }
  clearbody bonus.
  destruct (tier_bounds model_name bonus) as [Hpos Hcap]. cbv zeta in Hpos, Hcap.
  assert (Htier : (0 < tier model_name)%Q).
  { destruct (tier_range model_name) as [-> | [-> | ->]]; reflexivity. }
  destruct (Str.word_count response =? 0) eqn:E.
  - apply Z.eqb_eq in E. eexists. split; [reflexivity|].
    split; [split; discriminate|].
    split; [split; [intros _; now apply word_count_zero | reflexivity]|].
    split.
    + lra.
    + intros _. lra.
  - apply Z.eqb_neq in E.
    assert (Hwords : 0 < Str.word_count response).
    { unfold Str.word_count in *. lia. }
    destruct (estimate_bounds _ _ (Str.word_count query) Hpos Hwords) as [[Ha0 Ha1] Hab].
    cbv zeta in Ha0, Ha1, Hab.
    eexists. split; [reflexivity|].
    split; [split; [now apply Qlt_le_weak | exact Ha1]|].
    split.
    + split.
      * intros Hz. rewrite Hz in Ha0. now apply Qlt_irrefl in Ha0.
      * intros Hb. apply word_count_zero in Hb. contradiction.
    + split.
      * eapply Qle_trans; [exact Hab|]. destruct bonus; lra.
      * intros Hne. specialize (Hplain Hne). subst bonus. exact Hab.
Qed.

(** X15. [calculate_accuracy] of [utils/metrics.py] is the estimate of
    [ModelManager._estimate_accuracy] whenever the model name holds
    [ollama] exactly when the provider is [ollama]; it takes the 0.1
    bonus from the name where the manager takes it from the provider. *)
Theorem calculate_accuracy_agrees (model_config : ModelConfig)
    (model_name query response : string) :
  mc_model_name model_config = Some model_name ->
  (Py.contains "ollama" model_name = true <-> mc_provider model_config = Some "ollama") ->
  ModelManager._estimate_accuracy model_config query response
  = inr (UtilsMetrics.calculate_accuracy model_name query response).
Proof.
  intros Hn Hsame. unfold ModelManager._estimate_accuracy, UtilsMetrics.calculate_accuracy.
  rewrite Hn.
  assert (Hb : match mc_provider model_config with
               | Some provider => String.eqb provider "ollama"
               | None => false
               end = Py.contains "ollama" model_name).
  { destruct (Py.contains "ollama" model_name) eqn:E.
    - destruct Hsame as [H _]. rewrite (H eq_refl). reflexivity.
    - destruct (mc_provider model_config) as [provider|] eqn:P; [|reflexivity].
      apply String.eqb_neq. intros ->. destruct Hsame as [_ H].
      specialize (H eq_refl). congruence. }
  destruct (mc_provider model_config) as [provider|];
    rewrite <- Hb;
    [destruct (String.eqb provider "ollama")|];
    destruct (Str.word_count response =? 0); reflexivity.
Qed.

Lemma ollama_rate_range (model_name : string) :
  let rate := default 0.0000002%Q (UtilsMetrics.ollama_cost_per_token !! model_name) in
  rate = 0.0000001%Q \/ rate = 0.0000003%Q \/ rate = 0.0000002%Q.
Proof.
  cbv zeta. unfold UtilsMetrics.ollama_cost_per_token.
  destruct (_ !! model_name) as [rate|] eqn:E; cbn; [|auto].
  apply lookup_insert_Some in E as [[_ <-] | [_ E]]; [auto|].
  apply lookup_singleton_Some in E as [_ <-]. auto.
Qed.

Lemma huggingface_rate (model_name : string) :
  default 0.00001%Q (UtilsMetrics.huggingface_cost_per_token !! model_name) = 0.00001%Q.
Proof.
  unfold UtilsMetrics.huggingface_cost_per_token.
  destruct (_ !! model_name) as [rate|] eqn:E; cbn; [|reflexivity].
  apply lookup_singleton_Some in E as [_ <-]. reflexivity.
Qed.

(** X16. For a provider other than [ollama], [calculate_cost] prices
    every model alike, at 0.00001 a token and 1.3 tokens a word, the
    model name playing no part. For a response length that is not
    negative the cost is not negative, and under [ollama] it is never
    more than under any other provider, whatever the models. *)
Theorem calculate_cost_by_provider (model_name other_name provider : string)
    (response_length : Q) :
  provider <> "ollama" ->
  UtilsMetrics.calculate_cost other_name response_length provider
  = (0.00001 * (response_length * 1.3))%Q /\
  ((0 <= response_length)%Q ->
   (0 <= UtilsMetrics.calculate_cost model_name response_length "ollama")%Q /\
   (UtilsMetrics.calculate_cost model_name response_length "ollama"
    <= UtilsMetrics.calculate_cost other_name response_length provider)%Q).
Proof.
  intros Hp. unfold UtilsMetrics.calculate_cost.
  apply String.eqb_neq in Hp. rewrite Hp, (String.eqb_refl "ollama").
  rewrite (huggingface_rate other_name).
  split; [reflexivity|]. intros Hl.
  destruct (ollama_rate_range model_name) as [-> | [-> | ->]]; split; lra.
Qed.

(** ** Canned answers *)

Lemma improve_loop_closed (phrases : list string) (text query : string) :
  ModelManager.improve_loop phrases text query
  = if existsb (fun poor => Py.contains poor text) phrases
    then default text (ModelManager.better_response query)
    else text.
Proof.
  induction phrases as [|poor rest IH]; cbn; [reflexivity|].
  destruct (Py.contains poor text); cbn.
  - destruct (ModelManager.better_response query) as [better|]; cbn; [reflexivity|].
    rewrite IH. now destruct (existsb _ rest).
  - exact IH.
Qed.

(** No canned answer holds one of the poor phrases. *)
Lemma better_response_clean (query better : string) :
  ModelManager.better_response query = Some better ->
  existsb (fun poor => Py.contains poor better) ModelManager.poor_responses = false.
Proof.
  unfold ModelManager.better_response.
  destruct (_ && _); [intros [= <-]; vm_compute; reflexivity|].
  destruct (Py.contains "photosynthesis" _); [intros [= <-]; vm_compute; reflexivity|].
  destruct (Py.contains "poem" _); [intros [= <-]; vm_compute; reflexivity|].
  destruct (Py.contains "quantum computing" _); [intros [= <-]; vm_compute; reflexivity|].
  discriminate.
Qed.

(** The answer is the text unless a poor phrase is found and the chain
    of topics has an answer; a second pass changes nothing. *)
Lemma improve_response_quality_answer (text query : string) :
  let improved := ModelManager.improve_response_quality text query in
  let poor := exists phrase pre post,
                In phrase ModelManager.poor_responses /\ text = pre ++ phrase ++ post in
  (~ poor -> improved = text) /\
  (ModelManager.better_response query = None -> improved = text) /\
  (forall better, poor -> ModelManager.better_response query = Some better ->
     improved = better) /\
  ModelManager.improve_response_quality improved query = improved.
Proof.
  cbv zeta. unfold ModelManager.improve_response_quality.
  rewrite !improve_loop_closed.
  assert (Hpoor : existsb (fun poor => Py.contains poor text) ModelManager.poor_responses = true
                  <-> exists phrase pre post,
                        In phrase ModelManager.poor_responses /\ text = pre ++ phrase ++ post).
  { rewrite existsb_exists. split.
    - intros [phrase [Hin Hc]]. apply contains_spec in Hc as [pre [post Hc]]. eauto 6.
    - intros [phrase [pre [post [Hin Hc]]]]. exists phrase. split; [exact Hin|].
      apply contains_spec. eauto. }
  destruct (existsb (fun poor => Py.contains poor text) ModelManager.poor_responses) eqn:E.
  - destruct (ModelManager.better_response query) as [better|] eqn:B;
      cbn [default from_option id].
    + rewrite (better_response_clean query better B).
      split; [intros Hn; exfalso; apply Hn, Hpoor; reflexivity|].
      split; [discriminate|].
      split; [intros better' _ [= <-]; reflexivity | reflexivity].
    + rewrite E.
      split; [reflexivity|]. split; [reflexivity|].
      split; [intros better' _ Hb; discriminate | reflexivity].
  - rewrite E.
    split; [reflexivity|]. split; [reflexivity|].
    split; [intros better Hp _; apply Hpoor in Hp; discriminate | reflexivity].
Qed.

(** The chain of topics, first match first. *)
Lemma better_response_topics (query : string) :
  let egypt := about "capital" query /\ about "egypt" query in
  let photosynthesis := about "photosynthesis" query in
  let poem := about "poem" query in
  let quantum := about "quantum computing" query in
  (egypt -> ModelManager.better_response query
            = Some "Cairo is the capital city of Egypt.") /\
  (~ egypt -> photosynthesis ->
     ModelManager.better_response query
     = Some "Photosynthesis is the process where plants convert sunlight, water, and carbon dioxide into energy and oxygen.") /\
  (~ egypt -> ~ photosynthesis -> poem ->
     ModelManager.better_response query
     = Some "I apologize, I'm not very good at writing poems yet.") /\
  (~ egypt -> ~ photosynthesis -> ~ poem -> quantum ->
     ModelManager.better_response query
     = Some "Quantum computing research focuses on developing computers that use quantum bits (qubits) instead of classical bits, allowing for faster processing of complex problems.") /\
  (~ egypt -> ~ photosynthesis -> ~ poem -> ~ quantum ->
     ModelManager.better_response query = None).
Proof.
  cbv zeta. unfold about, ModelManager.better_response.
  decide_bool (Py.contains "capital" (Py.lower query))
              (contains_spec "capital" (Py.lower query));
  decide_bool (Py.contains "egypt" (Py.lower query))
              (contains_spec "egypt" (Py.lower query));
  decide_bool (Py.contains "photosynthesis" (Py.lower query))
              (contains_spec "photosynthesis" (Py.lower query));
  decide_bool (Py.contains "poem" (Py.lower query))
              (contains_spec "poem" (Py.lower query));
  decide_bool (Py.contains "quantum computing" (Py.lower query))
              (contains_spec "quantum computing" (Py.lower query));
  cbn [andb]; repeat split; intros; try reflexivity; exfalso; tauto.
Qed.

(** X17. [improve_response_quality] returns the text as it is unless
    the text holds one of the four poor phrases and the lower-cased
    query holds one of the topics. Then it returns the canned answer of
    the first topic in this order: [capital] together with [egypt],
    [photosynthesis], [poem], [quantum computing]. Which poor phrase was
    found plays no part, and applying it a second time changes
    nothing. *)
Theorem improve_response_quality_cases (text query : string) :
  let improved := ModelManager.improve_response_quality text query in
  let poor := exists phrase pre post,
                In phrase ["The answer to this question was not";
                           "It's a simple one";
                           "But I am glad for";
                           "He had no idea what he was doing"] /\
                text = pre ++ phrase ++ post in
  let egypt := about "capital" query /\ about "egypt" query in
  let photosynthesis := about "photosynthesis" query in
  let poem := about "poem" query in
  let quantum := about "quantum computing" query in
  (~ poor -> improved = text) /\
  (poor -> egypt -> improved = "Cairo is the capital city of Egypt.") /\
  (poor -> ~ egypt -> photosynthesis ->
     improved = "Photosynthesis is the process where plants convert sunlight, water, and carbon dioxide into energy and oxygen.") /\
  (poor -> ~ egypt -> ~ photosynthesis -> poem ->
     improved = "I apologize, I'm not very good at writing poems yet.") /\
  (poor -> ~ egypt -> ~ photosynthesis -> ~ poem -> quantum ->
     improved = "Quantum computing research focuses on developing computers that use quantum bits (qubits) instead of classical bits, allowing for faster processing of complex problems.") /\
  (~ egypt -> ~ photosynthesis -> ~ poem -> ~ quantum -> improved = text) /\
  ModelManager.improve_response_quality improved query = improved.
Proof.
  intros improved poor egypt photosynthesis poem quantum.
  destruct (improve_response_quality_answer text query) as [Hclean [Hnone [Hsome Hagain]]].
  destruct (better_response_topics query) as [He [Hp [Hpo [Hq Hno]]]].
  repeat split.
  - exact Hclean.
  - intros Hpoor H. exact (Hsome _ Hpoor (He H)).
  - intros Hpoor H1 H2. exact (Hsome _ Hpoor (Hp H1 H2)).
  - intros Hpoor H1 H2 H3. exact (Hsome _ Hpoor (Hpo H1 H2 H3)).
  - intros Hpoor H1 H2 H3 H4. exact (Hsome _ Hpoor (Hq H1 H2 H3 H4)).
  - intros H1 H2 H3 H4. exact (Hnone (Hno H1 H2 H3 H4)).
  - exact Hagain.
Qed.

(** ** main.py *)

Lemma analyze_app (results more : list Main.Outcome) :
  Main.analyze_misclassifications (results ++ more)
  = (Main.analyze_misclassifications results ++ Main.analyze_misclassifications more)%list.
Proof.
  induction results as [|r rest IH]; cbn; [reflexivity|].
  rewrite IH. apply app_assoc.
Qed.

(** What the analysis says of one outcome. *)
Lemma analyze_one (r : Main.Outcome) :
  let q := Py.lower (Main.o_query r) in
  let flagged expected :=
    [ {| Main.mis_query := Main.o_query r; Main.mis_expected := expected;
         Main.mis_actual := Main.o_classification r;
         Main.mis_model_used := Main.o_model_used r |} ] in
  Main.analyze_misclassifications [r]
  = if (Py.contains "analyze" q || Py.contains "complex" q)
       && negb (String.eqb (Main.o_classification r) "advanced")
    then flagged "advanced"
    else if (Py.contains "what is" q || Py.contains "define" q)
            && negb (String.eqb (Main.o_classification r) "simple")
         then flagged "simple"
         else [].
Proof. cbn. apply app_nil_r. Qed.

(** X18. [analyze_misclassifications] goes through the outcomes in
    order and reports each at most once, so the analysis of a list is
    the analysis of its parts put together. Every report is for one of
    the outcomes, with [advanced] or [simple] expected and another label
    found. An outcome labelled [error], as [main] records a call that
    raised, is reported whenever its query holds one of the four
    phrases. *)
Theorem analyze_misclassifications_reports (results : list Main.Outcome) :
  (forall more, Main.analyze_misclassifications (results ++ more)
                = (Main.analyze_misclassifications results
                   ++ Main.analyze_misclassifications more)%list) /\
  (length (Main.analyze_misclassifications results) <= length results)%nat /\
  (forall m, In m (Main.analyze_misclassifications results) ->
     exists r, In r results /\
       Main.mis_query m = Main.o_query r /\
       Main.mis_actual m = Main.o_classification r /\
       Main.mis_model_used m = Main.o_model_used r /\
       (Main.mis_expected m = "advanced" \/ Main.mis_expected m = "simple") /\
       Main.mis_actual m <> Main.mis_expected m) /\
  (forall r, In r results -> Main.o_classification r = "error" ->
     (exists phrase, In phrase ["analyze"; "complex"; "what is"; "define"] /\
                     Py.contains phrase (Py.lower (Main.o_query r)) = true) ->
     exists m, In m (Main.analyze_misclassifications results) /\
               Main.mis_query m = Main.o_query r /\ Main.mis_actual m = "error").
Proof.
  split; [intros more; apply analyze_app|].
  induction results as [|r rest [IHlen [IHin IHerr]]].
  - cbn. split; [lia | split; [intros m []| intros r []]].
  - change (r :: rest) with ([r] ++ rest)%list. rewrite analyze_app, analyze_one.
    cbv zeta.
    set (first := (Py.contains "analyze" (Py.lower (Main.o_query r))
                   || Py.contains "complex" (Py.lower (Main.o_query r)))).
    set (second := (Py.contains "what is" (Py.lower (Main.o_query r))
                    || Py.contains "define" (Py.lower (Main.o_query r)))).
    split; [|split].
    + rewrite length_app.
      destruct (first && _); [cbn; lia|]. destruct (second && _); cbn; lia.
    + intros m Hm. apply in_app_or in Hm as [Hm|Hm].
      * exists r. split; [now left|].
        destruct (first && negb (String.eqb (Main.o_classification r) "advanced")) eqn:E1.
        -- apply andb_true_iff in E1 as [_ E1]. apply negb_true_iff, String.eqb_neq in E1.
           destruct Hm as [<-|[]]. cbn. auto 7.
        -- destruct (second && negb (String.eqb (Main.o_classification r) "simple")) eqn:E2;
             [|destruct Hm].
           apply andb_true_iff in E2 as [_ E2]. apply negb_true_iff, String.eqb_neq in E2.
           destruct Hm as [<-|[]]. cbn. auto 7.
      * destruct (IHin m Hm) as [r' [Hin Hrest]]. exists r'. split; [now right | exact Hrest].
    + intros r' [<-|Hin] Herr Hphrase.
      * rewrite Herr. cbn [String.eqb negb andb].
        assert (Hany : first || second = true).
        { destruct Hphrase as [phrase [Hp Hc]]. subst first second. cbn in Hp.
          destruct Hp as [<-|[<-|[<-|[<-|[]]]]]; rewrite Hc;
            rewrite ?orb_true_r; reflexivity. }
        replace (String.eqb "error" "advanced") with false by reflexivity.
        replace (String.eqb "error" "simple") with false by reflexivity.
        cbn [negb]. rewrite !andb_true_r.
        destruct first; [|cbn in Hany; rewrite Hany];
          eexists; (split; [left; reflexivity | cbn; auto]).
      * destruct (IHerr r' Hin Herr Hphrase) as [m [Hm Hrest]].
        exists m. split; [apply in_or_app; now right | exact Hrest].
Qed.

(** X19. The analysis set against the rule-based classifier. When
    [analyze] and [complex] are advanced keywords of the classifier, an
    outcome it labelled is never reported with [advanced] expected. But
    a query that holds an advanced keyword together with [what is] or
    [define] is always reported, with [simple] expected, although the
    classifier followed its own order of precedence. *)
Theorem analysis_against_rules (config : ClassificationConfig) (query model : string) :
  let outcome := {| Main.o_query := query;
                    Main.o_classification := fst (_rule_based_classification config query);
                    Main.o_model_used := model |} in
  (In "analyze" (default [] (advanced_keywords config)) ->
   In "complex" (default [] (advanced_keywords config)) ->
   forall m, In m (Main.analyze_misclassifications [outcome]) ->
             Main.mis_expected m = "simple") /\
  (mentions (advanced_keywords config) query ->
   Py.contains "what is" (Py.lower query) || Py.contains "define" (Py.lower query) = true ->
   Main.analyze_misclassifications [outcome]
   = [ {| Main.mis_query := query; Main.mis_expected := "simple";
          Main.mis_actual := "advanced"; Main.mis_model_used := model |} ]).
Proof.
  cbv zeta. rewrite analyze_one. cbv zeta. cbn [Main.o_query Main.o_classification
                                               Main.o_model_used].
  split.
  - intros Ha Hc m.
    destruct (Py.contains "analyze" (Py.lower query)
              || Py.contains "complex" (Py.lower query)) eqn:E.
    + assert (Hm : mentions (advanced_keywords config) query).
      { apply orb_true_iff in E as [E|E]; apply contains_spec in E as [pre [post E]].
        - exists "analyze", pre, post. auto.
        - exists "complex", pre, post. auto. }
      rewrite (rule_based_keyword config query Hm). cbn [fst andb negb].
      replace (String.eqb "advanced" "advanced") with true by reflexivity.
      replace (String.eqb "advanced" "simple") with false by reflexivity.
      cbn [negb andb]. rewrite andb_true_r.
      destruct (Py.contains "what is" (Py.lower query)
                || Py.contains "define" (Py.lower query));
        [intros [<-|[]]; reflexivity | intros []].
    + cbn [andb].
      destruct ((Py.contains "what is" (Py.lower query)
                 || Py.contains "define" (Py.lower query)) && _);
        [intros [<-|[]]; reflexivity | intros []].
  - intros Hm Hw. rewrite (rule_based_keyword config query Hm). cbn [fst].
    replace (String.eqb "advanced" "advanced") with true by reflexivity.
    replace (String.eqb "advanced" "simple") with false by reflexivity.
    cbn [negb]. rewrite andb_false_r, Hw. reflexivity.
Qed.

Section Comparison.

Context {W : Type}.
Variable clock : W -> Q.
Variable huggingface ollama : ModelConfig -> string -> M W (string * Q * Q).
Variable cull : Z -> Q -> gmap string Item -> gmap string Item.

(** One turn of the comparison. *)
Lemma powerful_step_frame (query : string) (p : Router.Process) :
  let out := Main.powerful_step clock huggingface ollama cull query p in
  let entry := fst (fst (fst (fst out))) in
  Router.cache (Router.self (snd out)) = Router.cache (Router.self p) /\
  Router.config (Router.self (snd out)) = Router.config (Router.self p) /\
  total_queries (Router.metrics (Router.self (snd out)))
  = total_queries (Router.metrics (Router.self p)) + 1 /\
  cache_hits (Router.metrics (Router.self (snd out)))
  = cache_hits (Router.metrics (Router.self p)) /\
  Main.pr_query entry = query /\
  Main.pr_model_used entry = "gpt2-large" /\
  (models (Router.config (Router.self p)) !! "gpt2-large" = None ->
   entry = stand_in query).
Proof.
  cbv zeta. unfold Main.powerful_step.
  destruct (models (Router.config (Router.self p)) !! "gpt2-large") as [mc|] eqn:Hm.
  - rewrite (route_forced clock huggingface ollama cull query (Some "gpt2-large")
               "gpt2-large" mc p eq_refl Hm).
    destruct (Router.generate_response huggingface ollama mc query (Router.world p))
      as [[e | [[response speed] accuracy]] w']; [cbn; repeat split; discriminate|].
    destruct (mc_cost mc); cbn; repeat split; discriminate.
  - rewrite (route_unknown_forced clock huggingface ollama cull query (Some "gpt2-large")
               "gpt2-large" p eq_refl Hm).
    cbn. repeat split.
Qed.

Lemma powerful_loop_frame (queries : list string) (results : list Main.PowerfulResult)
    (totals : Main.Totals) (p : Router.Process) :
  let out := Main.powerful_loop clock huggingface ollama cull queries results totals p in
  Router.cache (Router.self (snd out)) = Router.cache (Router.self p) /\
  Router.config (Router.self (snd out)) = Router.config (Router.self p) /\
  total_queries (Router.metrics (Router.self (snd out)))
  = total_queries (Router.metrics (Router.self p)) + Z.of_nat (length queries) /\
  cache_hits (Router.metrics (Router.self (snd out)))
  = cache_hits (Router.metrics (Router.self p)) /\
  exists added,
    fst (fst out) = (results ++ added)%list /\
    map Main.pr_query added = queries /\
    Forall (fun entry => Main.pr_model_used entry = "gpt2-large") added /\
    (models (Router.config (Router.self p)) !! "gpt2-large" = None ->
     added = map stand_in queries).
Proof.
  revert results totals p.
  induction queries as [|query rest IH]; intros results totals p; cbv zeta.
  - cbn. repeat split; [lia|]. exists []. rewrite app_nil_r. repeat split. constructor.
  - cbn [Main.powerful_loop].
    pose proof (powerful_step_frame query p) as Hstep. cbv zeta in Hstep.
    destruct (Main.powerful_step clock huggingface ollama cull query p)
      as [[[[entry speed] price] acc] p1].
    cbn [fst snd] in Hstep.
    destruct Hstep as [Hc [Hcfg [Ht [Hh [Hq [Hmodel Hstand]]]]]].
    match goal with
    | |- context [Main.powerful_loop _ _ _ _ rest ?r ?t p1] =>
        specialize (IH r t p1); cbv zeta in IH;
        destruct (Main.powerful_loop clock huggingface ollama cull rest r t p1)
          as [[res tot] p2]
    end.
    cbn [fst snd] in *.
    destruct IH as [Hc2 [Hcfg2 [Ht2 [Hh2 [added [Hres [Hmap [Hall Hstand2]]]]]]]].
    split; [congruence|]. split; [congruence|].
    split; [rewrite Ht2, Ht; cbn [length]; lia|]. split; [congruence|].
    exists (entry :: added). split; [rewrite Hres, <- app_assoc; reflexivity|].
    split; [cbn; congruence|]. split; [constructor; assumption|].
    intros Hnone. cbn. rewrite (Hstand Hnone), Hstand2; [reflexivity|].
    rewrite Hcfg. exact Hnone.
Qed.

(** X20. [compare_with_most_powerful] forces [gpt2-large] for every
    query and swallows whatever a call raises. It leaves the cache
    object as it was, adds the number of queries to [total_queries] and
    nothing to [cache_hits]. For an empty list it raises
    [ZeroDivisionError]; otherwise it returns one result per query, in
    order, each under [gpt2-large]. When the registry has no
    [gpt2-large] every result is the stand-in: [Error occurred], 300 ms,
    accuracy 0.85 and cost 0.01. *)
Theorem comparison_frame (queries : list string) (p : Router.Process) :
  let out := Main.compare_with_most_powerful clock huggingface ollama cull queries p in
  Router.cache (Router.self (snd out)) = Router.cache (Router.self p) /\
  total_queries (Router.metrics (Router.self (snd out)))
  = total_queries (Router.metrics (Router.self p)) + Z.of_nat (length queries) /\
  cache_hits (Router.metrics (Router.self (snd out)))
  = cache_hits (Router.metrics (Router.self p)) /\
  (queries = [] -> out = (inl Main.ZeroDivisionError, p)) /\
  (queries <> [] ->
   exists results metrics,
     fst out = inr (results, metrics) /\
     map Main.pr_query results = queries /\
     Forall (fun entry => Main.pr_model_used entry = "gpt2-large") results /\
     (models (Router.config (Router.self p)) !! "gpt2-large" = None ->
      results = map stand_in queries)).
Proof.
  cbv zeta. unfold Main.compare_with_most_powerful.
  pose proof (powerful_loop_frame queries []
                {| Main.t_total_time := 0.0%Q; Main.t_total_cost := 0.0%Q;
                   Main.t_total_accuracy := 0.0%Q |} p) as Hloop.
  cbv zeta in Hloop.
  destruct (Main.powerful_loop clock huggingface ollama cull queries [] _ p)
    as [[results totals] p'] eqn:Hrun.
  cbn [fst snd] in Hloop.
  destruct Hloop as [Hc [_ [Ht [Hh [added [Hres [Hmap [Hall Hstand]]]]]]]].
  cbn in Hres. subst results.
  destruct queries as [|query rest].
  - cbn in Hrun. injection Hrun as _ _ <-. cbn.
    split; [reflexivity|]. split; [lia|]. split; [reflexivity|].
    split; [reflexivity|]. intros Hne. now elim Hne.
  - cbn [length Nat.eqb fst snd].
    split; [exact Hc|]. split; [exact Ht|]. split; [exact Hh|].
    split; [discriminate|]. intros _. eexists. eexists.
    split; [reflexivity|]. split; [exact Hmap|]. split; [exact Hall | exact Hstand].
Qed.

End Comparison.

(** ** The further statements at concrete inputs *)

Lemma cache_miss_computes_and_stores_witness :
  let p := Script.start Script.fresh [inr ("Cairo.", 120%Q, 0.9%Q)] in
  let run := Script.route_query "What is the capital of Egypt?" None p in
  fst run = inr (computed (fresh_entry "What is the capital of Egypt?" "ollama-simple"
                             ("Cairo.", 120%Q, 0.9%Q) 0.001%Q ("simple", 0.90%Q))) /\
  total_queries (Router.metrics (Router.self (snd run))) = 1 /\
  model_usage (Router.metrics (Router.self (snd run))) !! "ollama-simple" = Some 1.
Proof.
  cbv zeta.
  pose proof (cache_miss_computes_and_stores Script.now Script.transport Script.transport
                Script.keep_all "What is the capital of Egypt?" None
                (snd (lookup Script.now "What is the capital of Egypt?"
                        (Script.start Script.fresh [inr ("Cairo.", 120%Q, 0.9%Q)])))
                (Script.ollama "phi" 0.001%Q) ("Cairo.", 120%Q, 0.9%Q)
                {| Script.now := 1%Q; Script.replies := [] |} 0.001%Q
                (Script.start Script.fresh [inr ("Cairo.", 120%Q, 0.9%Q)])
                eq_refl) as Hmiss.
  destruct Hmiss as [Hresult [_ [Htotal [_ [Husage _]]]]];
    try (vm_compute; reflexivity).
  split; [exact Hresult | split; [exact Htotal | exact Husage]].
Defined.

Lemma miss_then_hit_witness :
  let p := Script.start Script.fresh [inr ("Cairo.", 120%Q, 0.9%Q)] in
  let first := Script.route_query "What is the capital of Egypt?" None p in
  let second := Script.route_query "WHAT IS THE CAPITAL OF EGYPT?" None (snd first) in
  fst second = inr (served (fresh_entry "What is the capital of Egypt?" "ollama-simple"
                              ("Cairo.", 120%Q, 0.9%Q) 0.001%Q ("simple", 0.90%Q))) /\
  cache_hits (Router.metrics (Router.self (snd second))) = 1.
Proof.
  cbv zeta.
  pose proof (miss_then_hit Script.now Script.transport Script.transport
                Script.keep_all "What is the capital of Egypt?"
                "WHAT IS THE CAPITAL OF EGYPT?" None None
                (snd (lookup Script.now "What is the capital of Egypt?"
                        (Script.start Script.fresh [inr ("Cairo.", 120%Q, 0.9%Q)])))
                (Script.ollama "phi" 0.001%Q) ("Cairo.", 120%Q, 0.9%Q)
                {| Script.now := 1%Q; Script.replies := [] |} 0.001%Q
                (Script.start Script.fresh [inr ("Cairo.", 120%Q, 0.9%Q)])
                eq_refl) as Hpair.
  cbv zeta in Hpair.
  destruct Hpair as [_ [Hsecond [_ [_ [Hhits _]]]]];
    try (vm_compute; reflexivity).
  split; [exact Hsecond | exact Hhits].
Defined.

Lemma unknown_provider_is_refused_witness :
  let p := {| Router.self := Router.init Demo.exotic Script.fresh;
              Router.world := {| Script.now := 0%Q; Script.replies := [] |} |} in
  let run := Script.route_query "Hello" (Some "gpt-4") p in
  fst run = inl (ValueError "Unknown provider: openai") /\
  Router.world (snd run) = Router.world p.
Proof.
  cbv zeta.
  pose proof (unknown_provider_is_refused Script.now Script.transport Script.transport
                Script.keep_all "Hello" (Some "gpt-4")
                {| mc_provider := Some "openai"; mc_model_name := Some "gpt-4";
                   mc_cost := Some 0.03%Q; mc_max_length := Some 1000 |}
                "openai"
                {| Router.self := Router.init Demo.exotic Script.fresh;
                   Router.world := {| Script.now := 0%Q; Script.replies := [] |} |}
                eq_refl) as Hrefused.
  destruct Hrefused as [_ [Hraise [Hworld _]]]; try discriminate.
  - vm_compute. reflexivity.
  - split; [exact Hraise | exact Hworld].
Defined.

Lemma get_stats_reports_hit_rate_witness :
  exists s,
    fst (QueryCache.get_stats Script.bytes (QueryCache.init 60 1000 Demo.counted_store))
    = inr s /\
    stat_items s = 1 /\ (0 <= stat_hit_rate s <= 1)%Q.
Proof.
  destruct (get_stats_reports_hit_rate Script.bytes
              (QueryCache.init 60 1000 Demo.counted_store))
    as [s [Hs [Hitems [_ [Hrate _]]]]].
  - intros op. reflexivity.
  - vm_compute. discriminate.
  - vm_compute. discriminate.
  - exists s. split; [exact Hs | split; [rewrite Hitems; vm_compute; reflexivity | exact Hrate]].
Defined.

Lemma get_metrics_rates_witness :
  exists snap,
    fst (get_metrics Script.bytes Demo.busy) = inr snap /\
    total_queries (snap_metrics snap) = 2 /\
    (0 <= cache_hit_rate snap <= 1)%Q.
Proof.
  destruct (get_metrics Script.bytes Demo.busy) as [[e|snap] r'] eqn:Hrun.
  - vm_compute in Hrun. discriminate.
  - exists snap. split; [reflexivity|].
    destruct (get_metrics_rates Script.bytes Demo.busy r' snap Hrun)
      as [Hsnap [_ [_ [Hrate _]]]].
    + vm_compute. repeat split; discriminate.
    + split; [rewrite Hsnap; vm_compute; reflexivity | exact Hrate].
Defined.

Lemma rule_based_without_keywords_witness :
  _rule_based_classification Demo.bare "What is Rocq?" = ("medium", 0.80%Q).
Proof.
  destruct (rule_based_without_keywords Demo.bare "What is Rocq?" eq_refl eq_refl)
    as [_ [Hshort _]].
  apply Hshort. vm_compute. discriminate.
Defined.

Lemma empty_keyword_matches_everything_witness :
  _rule_based_classification
    {| simple_keywords := Some ["what is"]; advanced_keywords := Some ["analyze"; ""];
       query_length_thresholds := None |} ""
  = ("advanced", 0.85%Q).
Proof.
  apply (empty_keyword_matches_everything
           {| simple_keywords := Some ["what is"]; advanced_keywords := Some ["analyze"; ""];
              query_length_thresholds := None |} "").
  right. left. reflexivity.
Defined.

Lemma rule_based_routing_witness :
  selected Demo.long_query (Script.start Script.fresh []) = "ollama-simple" /\
  selected "Please analyze this" (Script.start Script.fresh []) = "gpt2-large".
Proof.
  pose proof (rule_based_routing (Script.start Script.fresh []) Demo.long_query 0.8%Q
                eq_refl eq_refl) as Hlong.
  pose proof (rule_based_routing (Script.start Script.fresh []) "Please analyze this" 0.8%Q
                eq_refl eq_refl) as Hkeyword.
  cbv zeta in Hlong, Hkeyword.
  destruct Hlong as [_ [_ [_ Hlong]]]. destruct Hkeyword as [Hkeyword _].
  split.
  - apply Hlong.
    + rewrite <- any_keyword. vm_compute. discriminate.
    + vm_compute. reflexivity.
    + reflexivity.
  - apply Hkeyword.
    + exists "analyze", "please ", " this". split; [simpl; auto | reflexivity].
    + vm_compute. discriminate.
Defined.

Lemma calculate_accuracy_agrees_witness :
  ModelManager._estimate_accuracy
    {| mc_provider := Some "ollama"; mc_model_name := Some "ollama-medium";
       mc_cost := Some 0.003%Q; mc_max_length := Some 200 |}
    "What is Rocq?" "A proof assistant."
  = inr (UtilsMetrics.calculate_accuracy "ollama-medium" "What is Rocq?" "A proof assistant.").
Proof.
  apply calculate_accuracy_agrees; [reflexivity|].
  split; intros _; reflexivity.
Defined.

Lemma calculate_cost_by_provider_witness :
  (UtilsMetrics.calculate_cost "phi" 100%Q "ollama"
   <= UtilsMetrics.calculate_cost "gpt2-large" 100%Q "huggingface")%Q.
Proof.
  destruct (calculate_cost_by_provider "phi" "gpt2-large" "huggingface" 100%Q)
    as [_ Hcheap].
  - discriminate.
  - apply Hcheap. discriminate.
Defined.
